(** * Credential admission: registration and login of the job portal

    A shallow embedding of
      - [src/features/auth/auth.schema.ts]   (the three Zod rule sets),
      - [src/features/auth/server/auth.action.tsx]
                                             ([registrationAction], [loginUserAction]),
      - [src/app/login/Login.tsx]            (the handlers of the login form),
      - [src/app/register/Registration.tsx]  (the handler of the registration form),
    followed by the properties the specification states about them and
    further properties of the code.

    Strings are sequences of UTF-16 code units in the source; the model
    covers the code units below 256, one [ascii] each, so that [length]
    is JavaScript's [.length] and [String.eqb] is [===] on strings. *)

From Stdlib Require Import String Ascii List Bool Arith Lia.
Import ListNotations.
Open Scope string_scope.
Open Scope list_scope.
Open Scope nat_scope.

(* ================================================================== *)
(** ** JavaScript string operations used by the source *)

Module Js.

(** ECMAScript WhiteSpace and LineTerminator code units below 256:
    TAB, LF, VT, FF, CR, SP and NBSP. *)
Definition isWhiteSpace (c : ascii) : bool :=
  let n := nat_of_ascii c in
  ((9 <=? n) && (n <=? 13)) || (n =? 32) || (n =? 160).

(** The line terminators the regular-expression dot refuses. *)
Definition isLineTerminator (c : ascii) : bool :=
  let n := nat_of_ascii c in (n =? 10) || (n =? 13).

Fixpoint trimStart (s : string) : string :=
  match s with
  | EmptyString => EmptyString
  | String c s' => if isWhiteSpace c then trimStart s' else s
  end.

Fixpoint trimEnd (s : string) : string :=
  match s with
  | EmptyString => EmptyString
  | String c s' =>
      match trimEnd s' with
      | EmptyString => if isWhiteSpace c then EmptyString else String c EmptyString
      | t => String c t
      end
  end.

(** [String.prototype.trim] *)
Definition trim (s : string) : string := trimEnd (trimStart s).

(** Lower-case mapping of one code unit: A-Z, and the Latin-1 capitals
    U+00C0..U+00DE except the multiplication sign U+00D7. *)
Definition lowerChar (c : ascii) : ascii :=
  let n := nat_of_ascii c in
  if ((65 <=? n) && (n <=? 90))
     || ((192 <=? n) && (n <=? 222) && negb (n =? 215))
  then ascii_of_nat (n + 32) else c.

(** [String.prototype.toLowerCase] *)
Fixpoint toLowerCase (s : string) : string :=
  match s with
  | EmptyString => EmptyString
  | String c s' => String (lowerChar c) (toLowerCase s')
  end.

(** [s.startsWith(p)] *)
Definition startsWith (s p : string) : bool := String.prefix p s.

Definition chars (s : string) : list ascii := list_ascii_of_string s.

Definition isLower (c : ascii) : bool :=
  let n := nat_of_ascii c in (97 <=? n) && (n <=? 122).
Definition isUpper (c : ascii) : bool :=
  let n := nat_of_ascii c in (65 <=? n) && (n <=? 90).
Definition isDigit (c : ascii) : bool :=
  let n := nat_of_ascii c in (48 <=? n) && (n <=? 57).

(** The part of [s] a leading [.*] can run over: up to the first line
    terminator. *)
Fixpoint firstLine (s : string) : list ascii :=
  match s with
  | EmptyString => []
  | String c s' => if isLineTerminator c then [] else c :: firstLine s'
  end.

(** The lookahead [(?=.*[class])] tried at the start of [s]. *)
Definition lookahead (class : ascii -> bool) (s : string) : bool :=
  existsb class (firstLine s).

End Js.

(* ================================================================== *)
(** ** The validation engine the schemas are written against

    [auth.schema.ts] builds its rule sets with the Zod library.  The
    engine below is the part of it the schemas use: a string schema is a
    list of checks run in declaration order over a payload (a value and
    the issues found so far); a check either overwrites the value
    ([trim], [toLowerCase]) or tests it and pushes an issue.  An issue
    carries a [continue] flag; a payload holding an issue without it is
    aborted, and later checks that declare no [when] clause are skipped. *)

Module Zod.

Inductive IssueCode :=
| invalid_type | too_small | too_big | invalid_format | invalid_value | custom.

Record Issue := mkIssue {
  code : IssueCode;
  path : list string;
  message : string;
  continue : bool
}.

(** A field value is a string or [undefined] ([None]). *)
Record Payload := mkPayload {
  value : option string;
  issues : list Issue
}.

Definition push (p : Payload) (i : Issue) : Payload :=
  {| value := value p; issues := issues p ++ [i] |}.

(** [util.aborted(payload, startIndex)] *)
Definition aborted (iss : list Issue) (startIndex : nat) : bool :=
  existsb (fun i => negb (continue i)) (skipn startIndex iss).

Inductive Check :=
| overwrite (tx : string -> string)
| min_length (minimum : nat) (error : string)
| max_length (maximum : nat) (error : string)
| string_format (pattern : string -> bool) (error : string).

(** The length checks declare a [when] clause (the value is not
    nullish and has a length); the others declare none. *)
Definition when (ch : Check) : option (option string -> bool) :=
  match ch with
  | min_length _ _ | max_length _ _ =>
      Some (fun v => match v with Some _ => true | None => false end)
  | _ => None
  end.

(** One check applied to the payload.  Every issue of a check is
    pushed with [continue := true] (no check of the schemas sets
    [abort]).  A check is never run on [undefined] (see [runChecks]). *)
Definition check (ch : Check) (p : Payload) : Payload :=
  match value p with
  | None => p
  | Some s =>
      match ch with
      | overwrite tx => {| value := Some (tx s); issues := issues p |}
      | min_length minimum error =>
          if minimum <=? String.length s then p
          else push p (mkIssue too_small [] error true)
      | max_length maximum error =>
          if String.length s <=? maximum then p
          else push p (mkIssue too_big [] error true)
      | string_format pattern error =>
          if pattern s then p
          else push p (mkIssue invalid_format [] error true)
      end
  end.

Fixpoint runChecks (checks : list Check) (isAborted : bool) (p : Payload)
  : Payload :=
  match checks with
  | [] => p
  | ch :: rest =>
      let shouldRun :=
        match when ch with
        | Some w => w (value p)
        | None => negb isAborted
        end in
      if shouldRun then
        let currLen := List.length (issues p) in
        let p' := check ch p in
        let isAborted' :=
          if List.length (issues p') =? currLen then isAborted
          else if isAborted then true else aborted (issues p') currLen in
        runChecks rest isAborted' p'
      else runChecks rest isAborted p
  end.

(** The message of the default locale for a string that is missing. *)
Definition invalid_type_message : string :=
  "Invalid input: expected string, received undefined".

Inductive Schema :=
| z_string (checks : list Check)
| z_enum (values : list string) (error : string)
| z_default (inner : Schema) (defaultValue : string).

Fixpoint run (sch : Schema) (input : option string) : Payload :=
  match sch with
  | z_string checks =>
      let p :=
        match input with
        | Some _ => mkPayload input []
        | None => mkPayload None [mkIssue invalid_type [] invalid_type_message false]
        end in
      runChecks checks (aborted (issues p) 0) p
  | z_enum values error =>
      match input with
      | Some s =>
          if existsb (String.eqb s) values then mkPayload input []
          else mkPayload input [mkIssue invalid_value [] error false]
      | None => mkPayload None [mkIssue invalid_value [] error false]
      end
  | z_default inner defaultValue =>
      match input with
      | None => mkPayload (Some defaultValue) []
      | Some _ => run inner input
      end
  end.

(** [util.prefixIssues(key, issues)] *)
Definition prefixIssues (key : string) (iss : list Issue) : list Issue :=
  map (fun i => mkIssue (code i) (key :: path i) (message i) (continue i)) iss.

(** Builders, named as the schema file calls them. *)
Definition trim : Check := overwrite Js.trim.
Definition toLowerCase : Check := overwrite Js.toLowerCase.
Definition min := min_length.
Definition max := max_length.
Definition regex := string_format.

Inductive SafeParseResult (D : Type) :=
| success (data : D)
| failure (error_issues : list Issue).
Arguments success {D} data.
Arguments failure {D} error_issues.

End Zod.

(** A raw submission is an untyped object: field name to value, a field
    that is absent reading as [undefined]. *)
Definition Obj := list (string * string).

Fixpoint get (o : Obj) (key : string) : option string :=
  match o with
  | [] => None
  | (k, v) :: rest => if String.eqb k key then Some v else get rest key
  end.

(* ================================================================== *)
(** ** The library's e-mail format

    [.email(...)] tests the value against the library's pattern: the
    value does not start with a dot and holds no two dots in a row; the
    local part is made of letters, digits and the signs _ ' + - . and
    ends in a letter, a digit or one of _ + -; after the at-sign come one
    or more labels (a letter or digit, then letters, digits and hyphens),
    each closed by a dot, and a last label of two letters or more.
    No property below depends on more than its being a test of the
    transformed value. *)

Module EmailFormat.
Import Js.

Definition isLetter (c : ascii) : bool := isLower c || isUpper c.
Definition isAlnum (c : ascii) : bool := isLetter c || isDigit c.
Definition isOneOf (cs : string) (c : ascii) : bool :=
  existsb (Ascii.eqb c) (chars cs).

Definition isLocalChar (c : ascii) : bool := isAlnum c || isOneOf "_'+-." c.
Definition isLocalLast (c : ascii) : bool := isAlnum c || isOneOf "_+-" c.
Definition isLabelChar (c : ascii) : bool := isAlnum c || isOneOf "-" c.

Fixpoint hasDotDot (l : list ascii) : bool :=
  match l with
  | a :: ((b :: _) as rest) =>
      (Ascii.eqb a "." && Ascii.eqb b ".") || hasDotDot rest
  | _ => false
  end.

(** [l] cut at every [sep]. *)
Fixpoint splitOn (sep : ascii) (l : list ascii) : list (list ascii) :=
  match l with
  | [] => [[]]
  | c :: rest =>
      match splitOn sep rest with
      | seg :: segs => if Ascii.eqb c sep then [] :: seg :: segs
                       else (c :: seg) :: segs
      | [] => [[c]]
      end
  end.

Definition isLocalPart (l : list ascii) : bool :=
  forallb isLocalChar l &&
  match rev l with c :: _ => isLocalLast c | [] => false end.

Definition isLabel (l : list ascii) : bool :=
  match l with
  | c :: rest => isAlnum c && forallb isLabelChar rest
  | [] => false
  end.

Definition isTopLevel (l : list ascii) : bool :=
  forallb isLetter l && (2 <=? List.length l).

Definition isDomain (l : list ascii) : bool :=
  match rev (splitOn "." l) with
  | tld :: ((_ :: _) as labels) => isTopLevel tld && forallb isLabel labels
  | _ => false
  end.

Definition pattern (s : string) : bool :=
  negb (startsWith s ".") && negb (hasDotDot (firstLine s)) &&
  match splitOn "@" (chars s) with
  | [loc; dom] => isLocalPart loc && isDomain dom
  | _ => false
  end.

End EmailFormat.

(* ================================================================== *)
(** ** [auth.schema.ts] *)

Module Schema.

(** [/^[a-zA-Z0-9_-]+$/] *)
Definition isHandleChar (c : ascii) : bool :=
  Js.isLower c || Js.isUpper c || Js.isDigit c
  || Ascii.eqb c "_" || Ascii.eqb c "-".

Definition userName_pattern (s : string) : bool :=
  negb (String.eqb s "") && forallb isHandleChar (Js.chars s).

(** [/^(?=.*[a-z])(?=.*[A-Z])(?=.*\d)/] *)
Definition password_pattern (s : string) : bool :=
  Js.lookahead Js.isLower s && Js.lookahead Js.isUpper s
  && Js.lookahead Js.isDigit s.

Definition email (error : string) : Zod.Check :=
  Zod.string_format EmailFormat.pattern error.

Definition name_schema : Zod.Schema :=
  Zod.z_string
    [ Zod.trim;
      Zod.min 2 "Name must be atleast 2 char long";
      Zod.max 255 "Name must not excee 255 characters" ].

Definition userName_schema : Zod.Schema :=
  Zod.z_string
    [ Zod.trim;
      Zod.min 3 "Username must be atleast 3 characters long";
      Zod.max 255 "Username must not exceed 255 characters";
      Zod.regex userName_pattern
        "Username  can only contain letters , numbers , underscores , and hyphens" ].

Definition email_schema : Zod.Schema :=
  Zod.z_string
    [ Zod.trim;
      Zod.toLowerCase;
      email "Please enter a valid email address";
      Zod.max 255 "Email must not exceed 255 characters" ].

Definition password_schema : Zod.Schema :=
  Zod.z_string
    [ Zod.min 8 "Password must be atleast character long";
      Zod.regex password_pattern
        "Password must contain at leaset one lowercase letter , one uppercase letter and one number" ].

Definition role_schema : Zod.Schema :=
  Zod.z_default
    (Zod.z_enum ["applicant"; "employer"]
       "Role must be either an applicant or employer")
    "applicant".

(** [z.infer<typeof registerUserSchema>] *)
Record RegisterUserData := mkRegisterUserData {
  name : string;
  userName : string;
  email_ : string;
  password : string;
  role : string
}.

(** The object payload after the fields have been run, in the order the
    shape declares them. *)
Record ObjectPayload (D : Type) := mkObjectPayload {
  data : option D;
  issues : list Zod.Issue
}.
Arguments mkObjectPayload {D} data issues.
Arguments data {D} o.
Arguments issues {D} o.

Definition registerUserSchema_run (input : Obj) : ObjectPayload RegisterUserData :=
  let r_name := Zod.run name_schema (get input "name") in
  let r_userName := Zod.run userName_schema (get input "userName") in
  let r_email := Zod.run email_schema (get input "email") in
  let r_password := Zod.run password_schema (get input "password") in
  let r_role := Zod.run role_schema (get input "role") in
  {| data :=
       match Zod.value r_name, Zod.value r_userName, Zod.value r_email,
             Zod.value r_password, Zod.value r_role with
       | Some n, Some u, Some e, Some p, Some r =>
           Some (mkRegisterUserData n u e p r)
       | _, _, _, _, _ => None
       end;
     issues :=
       Zod.prefixIssues "name" (Zod.issues r_name)
       ++ Zod.prefixIssues "userName" (Zod.issues r_userName)
       ++ Zod.prefixIssues "email" (Zod.issues r_email)
       ++ Zod.prefixIssues "password" (Zod.issues r_password)
       ++ Zod.prefixIssues "role" (Zod.issues r_role) |}.

(** [schema.safeParse(input)]: an error exactly when an issue was
    raised. *)
Definition safeParse {D} (p : ObjectPayload D) : Zod.SafeParseResult D :=
  match issues p, data p with
  | [], Some d => Zod.success d
  | iss, _ => Zod.failure iss
  end.

Definition registerUserSchema (input : Obj) : Zod.SafeParseResult RegisterUserData :=
  safeParse (registerUserSchema_run input).

(** [registerUserSchema.extend({confirmPassword: z.string()}).refine(...)] *)
Record RegisterUserWithConfirmData := mkRegisterUserWithConfirmData {
  base : RegisterUserData;
  confirmPassword : string
}.

Definition confirmPassword_schema : Zod.Schema := Zod.z_string [].

(** The refinement is a check of the object: it is skipped when the
    payload is aborted, and its issue goes to the path it declares. *)
Definition registerUserWithConfirmSchema_run (input : Obj)
  : ObjectPayload RegisterUserWithConfirmData :=
  let fields := registerUserSchema_run input in
  let r_confirm := Zod.run confirmPassword_schema (get input "confirmPassword") in
  let iss := issues fields
             ++ Zod.prefixIssues "confirmPassword" (Zod.issues r_confirm) in
  let d := match data fields, Zod.value r_confirm with
           | Some b, Some c => Some (mkRegisterUserWithConfirmData b c)
           | _, _ => None
           end in
  if Zod.aborted iss 0 then mkObjectPayload d iss
  else
    match d with
    | Some v =>
        if String.eqb (password (base v)) (confirmPassword v)
        then mkObjectPayload d iss
        else mkObjectPayload d
               (iss ++ [Zod.mkIssue Zod.custom ["confirmPassword"]
                          "Passwords don't match" true])
    | None => mkObjectPayload d iss
    end.

Definition registerUserWithConfirmSchema (input : Obj)
  : Zod.SafeParseResult RegisterUserWithConfirmData :=
  safeParse (registerUserWithConfirmSchema_run input).

(** [loginUserSchema] *)
Record LoginUserData := mkLoginUserData {
  login_email : string;
  login_password : string
}.

Definition login_email_schema : Zod.Schema :=
  Zod.z_string
    [ Zod.trim;
      Zod.toLowerCase;
      email "Please enter a valid email address";
      Zod.max 255 "Email must not exceed 255 characters" ].

Definition login_password_schema : Zod.Schema :=
  Zod.z_string [ Zod.min 8 "Password must be atlease 8 characters long" ].

Definition loginUserSchema_run (input : Obj) : ObjectPayload LoginUserData :=
  let r_email := Zod.run login_email_schema (get input "email") in
  let r_password := Zod.run login_password_schema (get input "password") in
  {| data :=
       match Zod.value r_email, Zod.value r_password with
       | Some e, Some p => Some (mkLoginUserData e p)
       | _, _ => None
       end;
     issues :=
       Zod.prefixIssues "email" (Zod.issues r_email)
       ++ Zod.prefixIssues "password" (Zod.issues r_password) |}.

Definition loginUserSchema (input : Obj) : Zod.SafeParseResult LoginUserData :=
  safeParse (loginUserSchema_run input).

End Schema.

(* ================================================================== *)
(** ** The collaborators of the server actions

    [auth.action.tsx] awaits four things it does not define: two
    queries and one insert on the [users] table (through drizzle) and
    the two functions of the argon2 binding.  Each is a [Call]; what it
    answers is left to an environment, which may answer with a value or
    with an exception.  Console output is not modelled. *)

(** A row of the [users] table, with the columns the actions read or
    write.  The stored password is nullable at run time: the login
    action tests it for falsiness before use. *)
Record User := mkUser {
  user_name : string;
  user_userName : string;
  user_email : string;
  user_password : option string;
  user_role : string
}.

(** The object handed to [db.insert(users).values(...)]. *)
Record NewUser := mkNewUser {
  new_name : string;
  new_email : string;
  new_password : string;
  new_userName : string;
  new_role : string
}.

Inductive Call :=
| select_where_email_or_userName (email userName : string)
| select_where_email (email : string)
| argon2_hash (plain : string)
| argon2_verify (digest plain : string)
| insert_values (row : NewUser).

(** What a call resolves to. *)
Definition Resolved (c : Call) : Type :=
  match c with
  | select_where_email_or_userName _ _ => list User
  | select_where_email _ => list User
  | argon2_hash _ => string
  | argon2_verify _ _ => bool
  | insert_values _ => unit
  end.

(** What a rejected promise or a [throw] carries. *)
Inductive Exn :=
| UniqueViolation (constraint : string)
| TypeError (detail : string)
| Failure (detail : string).

(** An environment answers every call from a world [W] of its own. *)
Definition Env (W : Type) : Type :=
  forall c : Call, W -> (Resolved c + Exn) * W.

(** The result of running an [async] body: what it returned or threw,
    the world it left, and the calls it made, in order. *)
Record Run (A W : Type) := mkRun {
  result : A + Exn;
  world : W;
  trace : list Call
}.
Arguments mkRun {A W} result world trace.
Arguments result {A W} r.
Arguments world {A W} r.
Arguments trace {A W} r.

(** An [async] body, run against an environment from a world. *)
Definition Async (W A : Type) : Type := Env W -> W -> Run A W.

Section Async.
Context {W : Type}.

(** [return a] *)
Definition ret {A} (a : A) : Async W A :=
  fun _ w => mkRun (inl a) w [].

(** [throw e] *)
Definition throw {A} (e : Exn) : Async W A :=
  fun _ w => mkRun (inr e) w [].

(** [await c]: a rejection is thrown at the point of the [await]. *)
Definition await (c : Call) : Async W (Resolved c) :=
  fun env w => let (r, w1) := env c w in mkRun r w1 [c].

(** Sequencing: what follows runs only if what precedes returned. *)
Definition bind {A B} (m : Async W A) (f : A -> Async W B) : Async W B :=
  fun env w =>
    let r := m env w in
    match result r with
    | inl a =>
        let r2 := f a env (world r) in
        mkRun (result r2) (world r2) (trace r ++ trace r2)
    | inr e => mkRun (inr e) (world r) (trace r)
    end.

(** [try { body } catch (error) { handler }] *)
Definition try_catch {A} (body : Async W A) (handler : Exn -> Async W A)
  : Async W A :=
  fun env w =>
    let r := body env w in
    match result r with
    | inl _ => r
    | inr e =>
        let r2 := handler e env (world r) in
        mkRun (result r2) (world r2) (trace r ++ trace r2)
    end.

End Async.

Notation "x <- m ;; k" := (bind m (fun x => k))
  (at level 61, m at next level, right associativity).

(** [if (x)] on a nullable string: [null] and the empty string are
    falsy. *)
Definition truthy (x : option string) : bool :=
  match x with
  | Some s => negb (String.eqb s "")
  | None => false
  end.

(* ================================================================== *)
(** ** [auth.action.tsx] *)

Module Action.
Import Schema.

Record Outcome := mkOutcome {
  status : string;
  message : string
}.

Definition registrationAction {W} (formData : Obj) : Async W Outcome :=
  try_catch
    (match registerUserSchema formData with
     | Zod.failure error_issues =>
         match error_issues with
         | issue0 :: _ => ret (mkOutcome "ERROR" (Zod.message issue0))
         | [] => throw (TypeError "Cannot read properties of undefined")
         end
     | Zod.success validatedData =>
         let name := name validatedData in
         let email := email_ validatedData in
         let password := password validatedData in
         let userName := userName validatedData in
         let role := role validatedData in
         rows <- await (select_where_email_or_userName email userName) ;;
         match rows with
         | user :: _ =>
             if String.eqb (user_email user) email
             then ret (mkOutcome "ERROR" "Email Already Exists")
             else ret (mkOutcome "ERROR" "Username Already Exists")
         | [] =>
             hashPassword <- await (argon2_hash password) ;;
             _ <- await (insert_values
                           (mkNewUser name email hashPassword userName role)) ;;
             ret (mkOutcome "SUCCESS" "Registration Completed Successfully")
         end
     end)
    (fun error =>
       ret (mkOutcome "ERROR" "Unknown Error Occured ! Please Try Again Later")).

(** The argument of [loginUserAction]. *)
Record LoginFormData := mkLoginFormData {
  form_email : string;
  form_password : string
}.

Definition loginUserAction {W} (formData : LoginFormData) : Async W Outcome :=
  try_catch
    (let email := form_email formData in
     let password := form_password formData in
     rows <- await (select_where_email email) ;;
     match rows with
     | [] => ret (mkOutcome "ERROR" "Invalid email or password")
     | user :: _ =>
         match user_password user with
         | None => ret (mkOutcome "ERROR" "Invalid email or password")
         | Some hash =>
             if negb (truthy (Some hash)) || negb (Js.startsWith hash "$")
             then ret (mkOutcome "ERROR" "Invalid email or password")
             else
               isValidPassword <- await (argon2_verify hash password) ;;
               if isValidPassword
               then ret (mkOutcome "SUCCESS" "Login Successful")
               else ret (mkOutcome "ERROR" "Invalid email or password")
         end
     end)
    (fun error =>
       ret (mkOutcome "ERROR" "Unknown Error Occured ! Please Try Again Later")).

End Action.

(* ================================================================== *)
(** ** The login pages *)

Module Login.
Import Action.

(** What the page shows once the action has answered. *)
Inductive Toast :=
| toast_success (text : string)
| toast_error (text : string).

(** [if (result.status === "SUCCESS") toast.success(result.message)
    else toast.error(result.message)] *)
Definition notify (r : Outcome) : Toast :=
  if String.eqb (status r) "SUCCESS" then toast_success (message r)
  else toast_error (message r).

(** [Login.tsx], [handleInputChange]: the new form state,
    [{...prev, [name]: value}]. *)
Fixpoint assign (prev : Obj) (name value : string) : Obj :=
  match prev with
  | [] => [(name, value)]
  | (k, v) :: rest =>
      if String.eqb k name then (k, value) :: rest
      else (k, v) :: assign rest name value
  end.

Definition handleInputChange (name value : string) (prev : Obj) : Obj :=
  assign prev name value.

(** [Login.tsx], [handleFormSubmit]: the object built from the form
    state and handed to the action. *)
Definition loginData (formData : LoginFormData) : LoginFormData :=
  {| form_email := Js.trim (Js.toLowerCase (form_email formData));
     form_password := Js.trim (form_password formData) |}.

(** [Login.tsx], [handleFormSubmit]: the empty [catch] swallows what
    the body throws, and then nothing is shown. *)
Definition handleFormSubmit {W} (formData : LoginFormData)
  : Async W (option Toast) :=
  try_catch
    (result <- loginUserAction (loginData formData) ;;
     ret (Some (notify result)))
    (fun error => ret None).

(** The later page: [onSubmit] receives what [loginUserSchema] parsed
    and hands it on unchanged; a thrown error shows a fixed toast. *)
Definition onSubmit {W} (data : Schema.LoginUserData) : Async W Toast :=
  try_catch
    (result <- loginUserAction
                 (mkLoginFormData (Schema.login_email data)
                                  (Schema.login_password data)) ;;
     ret (notify result))
    (fun error => ret (toast_error "Something went wrong")).

(** [handleSubmit(onSubmit)] with [zodResolver(loginUserSchema)]:
    [onSubmit] is called with the parsed values when the form
    validates; otherwise the issues go to the form state and no call
    is made. *)
Definition submit {W} (values : Obj) : Async W (option Toast) :=
  match Schema.loginUserSchema values with
  | Zod.success data => t <- onSubmit data ;; ret (Some t)
  | Zod.failure _ => ret None
  end.

End Login.

(* ================================================================== *)
(** ** The registration page *)

Module Registration.
Import Schema Action.

(** The parsed form values as the object [onSubmit] passes on. *)
Definition toObj (data : RegisterUserWithConfirmData) : Obj :=
  [ ("name", name (base data));
    ("userName", userName (base data));
    ("email", email_ (base data));
    ("password", password (base data));
    ("role", role (base data));
    ("confirmPassword", confirmPassword data) ].

(** [Registration.tsx], [onSubmit] *)
Definition onSubmit {W} (data : RegisterUserWithConfirmData)
  : Async W Login.Toast :=
  try_catch
    (result <- registrationAction (toObj data) ;;
     ret (Login.notify result))
    (fun error => ret (Login.toast_error "Something went wrong")).

(** [handleSubmit(onSubmit)] with
    [zodResolver(registerUserWithConfirmSchema)] *)
Definition submit {W} (values : Obj) : Async W (option Login.Toast) :=
  match registerUserWithConfirmSchema values with
  | Zod.success data => t <- onSubmit data ;; ret (Some t)
  | Zod.failure _ => ret None
  end.

End Registration.

(* ================================================================== *)
(** ** A storage and hashing environment

    Modelled from the spec: the [users] table and the database handle
    are imported from [@/drizzle/schema] and [@/config/db], which are
    not among the sources.  The specification describes the stored
    records as keyed uniquely by e-mail and, independently, by user
    name, the insert as failing with a uniqueness violation, and the
    check-then-insert sequence as open to writes of other sessions.
    The hashing functions stand in for the argon2 binding: [hash]
    yields a string in the binding's dollar-separated layout, [verify]
    throws on a digest it cannot take apart and compares otherwise. *)

Module Storage.

Record World := mkWorld {
  table : list User;
  (** rows committed by other sessions, one batch before each call *)
  arriving : list (list User)
}.

Definition quiet (t : list User) : World := mkWorld t [].

Definition arrive (w : World) : World :=
  match arriving w with
  | [] => w
  | batch :: later => mkWorld (table w ++ batch) later
  end.

Definition hash (plain : string) : string := "$argon2id$" ++ plain.

Definition well_formed (digest : string) : bool :=
  Js.startsWith digest "$argon2id$".

Definition taken (t : list User) (row : NewUser) : option string :=
  if existsb (fun u => String.eqb (user_email u) (new_email row)) t
  then Some "users_email_unique"
  else if existsb (fun u => String.eqb (user_userName u) (new_userName row)) t
  then Some "users_user_name_unique"
  else None.

Definition stored (row : NewUser) : User :=
  mkUser (new_name row) (new_userName row) (new_email row)
         (Some (new_password row)) (new_role row).

Definition env : Env World :=
  fun c w0 =>
    let w := arrive w0 in
    match c return (Resolved c + Exn) * World with
    | select_where_email_or_userName email userName =>
        (inl (filter (fun u => String.eqb (user_email u) email
                               || String.eqb (user_userName u) userName)
                     (table w)), w)
    | select_where_email email =>
        (inl (filter (fun u => String.eqb (user_email u) email) (table w)), w)
    | argon2_hash plain => (inl (hash plain), w)
    | argon2_verify digest plain =>
        if well_formed digest
        then (inl (String.eqb digest (hash plain)), w)
        else (inr (TypeError "pchstr contains too few fields"), w)
    | insert_values row =>
        match taken (table w) row with
        | Some constraint => (inr (UniqueViolation constraint), w)
        | None => (inl tt, mkWorld (table w ++ [stored row]) (arriving w))
        end
    end.

End Storage.

(* ================================================================== *)
(** ** The rules in the words of the specification

    A field is sanitised, then its constraints are looked at in the
    order they are declared; the first one violated gives the message.
    The fields are looked at in the order they are declared. *)

Module Spec.

Definition Constraint : Type := (string -> bool) * string.

Fixpoint first_failed (cs : list Constraint) (v : string) : option string :=
  match cs with
  | [] => None
  | (holds, text) :: rest =>
      if holds v then first_failed rest v else Some text
  end.

Record Field := mkField {
  key : string;
  sanitise : string -> string;
  constraints : list Constraint;
  fallback : option string
}.

Definition name_rules : Field :=
  mkField "name" Js.trim
    [ (fun v => 2 <=? String.length v, "Name must be atleast 2 char long");
      (fun v => String.length v <=? 255, "Name must not excee 255 characters") ]
    None.

Definition userName_rules : Field :=
  mkField "userName" Js.trim
    [ (fun v => 3 <=? String.length v,
       "Username must be atleast 3 characters long");
      (fun v => String.length v <=? 255,
       "Username must not exceed 255 characters");
      (Schema.userName_pattern,
       "Username  can only contain letters , numbers , underscores , and hyphens") ]
    None.

Definition email_rules : Field :=
  mkField "email" (fun v => Js.toLowerCase (Js.trim v))
    [ (EmailFormat.pattern, "Please enter a valid email address");
      (fun v => String.length v <=? 255,
       "Email must not exceed 255 characters") ]
    None.

Definition password_rules : Field :=
  mkField "password" (fun v => v)
    [ (fun v => 8 <=? String.length v,
       "Password must be atleast character long");
      (Schema.password_pattern,
       "Password must contain at leaset one lowercase letter , one uppercase letter and one number") ]
    None.

Definition role_rules : Field :=
  mkField "role" (fun v => v)
    [ (fun v => String.eqb v "applicant" || String.eqb v "employer",
       "Role must be either an applicant or employer") ]
    (Some "applicant").

(** The fields, in the order they are declared. *)
Definition fields : list Field :=
  [ name_rules; userName_rules; email_rules; password_rules; role_rules ].

Definition violation (f : Field) (input : Obj) : option string :=
  match get input (key f) with
  | Some v => first_failed (constraints f) (sanitise f v)
  | None =>
      match fallback f with
      | Some _ => None
      | None => Some Zod.invalid_type_message
      end
  end.

Fixpoint first_of (fs : list Field) (input : Obj) : option string :=
  match fs with
  | [] => None
  | f :: rest =>
      match violation f input with
      | Some text => Some text
      | None => first_of rest input
      end
  end.

(** The first violation of a registration submission, if any. *)
Definition first_violation (input : Obj) : option string :=
  first_of fields input.

End Spec.

(* ================================================================== *)
(** ** Vocabulary of the statements *)

(** The issue a failed test of a string pushes. *)
Definition issue (c : Zod.IssueCode) (m : string) : Zod.Issue :=
  Zod.mkIssue c [] m true.

Definition unless (b : bool) (i : Zod.Issue) : list Zod.Issue :=
  if b then [] else [i].

Definition isRole (s : string) : bool :=
  String.eqb s "applicant" || String.eqb s "employer".

Definition missing : Zod.Payload :=
  Zod.mkPayload None
    [Zod.mkIssue Zod.invalid_type [] Zod.invalid_type_message false].

(** The issue of the refinement of [registerUserWithConfirmSchema]. *)
Definition mismatch : Zod.Issue :=
  Zod.mkIssue Zod.custom ["confirmPassword"] "Passwords don't match" true.

(** Every field of the submission has a value of its declared type:
    the five strings are present and the role, if present, is one of
    the two listed. *)
Definition typed (input : Obj) : bool :=
  match get input "name", get input "userName", get input "email",
        get input "password", get input "confirmPassword" with
  | Some _, Some _, Some _, Some _, Some _ =>
      match get input "role" with
      | Some r => isRole r
      | None => true
      end
  | _, _, _, _, _ => false
  end.

(** The messages of the issues a schema raises on a value. *)
Definition messages (sch : Zod.Schema) (v : string) : list string :=
  map Zod.message (Zod.issues (Zod.run sch (Some v))).

Definition invalid_credentials : Action.Outcome :=
  Action.mkOutcome "ERROR" "Invalid email or password".

Definition unknown_error : Action.Outcome :=
  Action.mkOutcome "ERROR" "Unknown Error Occured ! Please Try Again Later".

(** The stored password does not pass the safeguard of the login
    action: it is [null], empty, or does not start with a dollar. *)
Definition rejected_by_guard (stored : option string) : Prop :=
  stored = None \/ stored = Some ""
  \/ exists h, stored = Some h /\ Js.startsWith h "$" = false.

(** The three ways a login fails on the credentials, read off the
    answers of the environment. *)
Inductive LoginFailure {W} (env : Env W) (w : W) (formData : Action.LoginFormData)
  : Prop :=
| no_record w1 :
    env (select_where_email (Action.form_email formData)) w = (inl [], w1) ->
    LoginFailure env w formData
| guard_rejected user rest w1 :
    env (select_where_email (Action.form_email formData)) w
      = (inl (user :: rest), w1) ->
    rejected_by_guard (user_password user) ->
    LoginFailure env w formData
| verify_false user rest w1 h w2 :
    env (select_where_email (Action.form_email formData)) w
      = (inl (user :: rest), w1) ->
    user_password user = Some h ->
    Js.startsWith h "$" = true ->
    env (argon2_verify h (Action.form_password formData)) w1 = (inl false, w2) ->
    LoginFailure env w formData.

Definition isHash (c : Call) : bool :=
  match c with argon2_hash _ => true | _ => false end.

Definition isInsert (c : Call) : bool :=
  match c with insert_values _ => true | _ => false end.

Definition isVerify (c : Call) : bool :=
  match c with argon2_verify _ _ => true | _ => false end.

(** The issue the user-name pattern raises, as the object reports it. *)
Definition userName_format_issue : Zod.Issue :=
  Zod.mkIssue Zod.invalid_format ["userName"]
    "Username  can only contain letters , numbers , underscores , and hyphens"
    true.

Definition password_length_message : string :=
  "Password must be atleast character long".

Definition password_classes_message : string :=
  "Password must contain at leaset one lowercase letter , one uppercase letter and one number".

(** Sample submissions. *)
Definition padded_registration : Obj :=
  [ ("name", "Jo"); ("userName", " jo_1 "); ("email", " A@B.com ");
    ("password", "Abcdefg1") ].

Definition padded_registration_data : Schema.RegisterUserData :=
  Schema.mkRegisterUserData "Jo" "jo_1" "a@b.com" "Abcdefg1" "applicant".

Definition spaced_userName_registration : Obj :=
  [ ("name", "Jo"); ("userName", "jo 1"); ("email", "a@b.com");
    ("password", "Abcdefg1") ].

Definition short_mismatched_registration : Obj :=
  [ ("name", "Jo"); ("userName", "jo_1"); ("email", "a@b.com");
    ("password", "abc"); ("confirmPassword", "z") ].

(** The two password fields of the submission are both present and
    differ. *)
Definition passwords_differ (input : Obj) : bool :=
  match get input "password", get input "confirmPassword" with
  | Some p, Some c => negb (String.eqb p c)
  | _, _ => false
  end.

Definition short_name_registration : Obj :=
  [ ("name", "J"); ("userName", "j@"); ("email", "a@b.com");
    ("password", "abc") ].

(** The message of the first issue a field reports, if any. *)
Definition reported (key : string) (p : Zod.Payload) : option string :=
  hd_error (map Zod.message (Zod.prefixIssues key (Zod.issues p))).

(** The calls of a registration that goes all the way. *)
Definition duplicate_query (d : Schema.RegisterUserData) : Call :=
  select_where_email_or_userName (Schema.email_ d) (Schema.userName d).

Definition insertion (d : Schema.RegisterUserData) (hashPassword : string)
  : Call :=
  insert_values
    (mkNewUser (Schema.name d) (Schema.email_ d) hashPassword
       (Schema.userName d) (Schema.role d)).

Definition email_exists : Action.Outcome :=
  Action.mkOutcome "ERROR" "Email Already Exists".

Definition userName_exists : Action.Outcome :=
  Action.mkOutcome "ERROR" "Username Already Exists".

Definition registered : Action.Outcome :=
  Action.mkOutcome "SUCCESS" "Registration Completed Successfully".

Definition logged_in : Action.Outcome :=
  Action.mkOutcome "SUCCESS" "Login Successful".

Definition valid_registration : Obj :=
  [ ("name", "Jo"); ("userName", "jo_1"); ("email", "a@b.com");
    ("password", "Abcdefg1") ].

Definition valid_registration_data : Schema.RegisterUserData :=
  Schema.mkRegisterUserData "Jo" "jo_1" "a@b.com" "Abcdefg1" "applicant".

(** A stored account with the e-mail of [valid_registration]. *)
Definition same_email_user : User :=
  mkUser "Al" "al_1" "a@b.com" (Some (Storage.hash "Zyxwvut9")) "employer".

(** A stored account with the user name of [valid_registration]. *)
Definition same_userName_user : User :=
  mkUser "Joe" "jo_1" "joe@b.com" (Some (Storage.hash "Zyxwvut9")) "applicant".

(** Another session commits [same_email_user] after the duplicate query
    of this one has been answered. *)
Definition raced : Storage.World :=
  Storage.mkWorld [] [ []; [same_email_user] ].

Definition login_query (formData : Action.LoginFormData) : Call :=
  select_where_email (Action.form_email formData).

(** Sample accounts and logins. *)
Definition jo : User :=
  mkUser "Jo" "jo_1" "a@b.com" (Some (Storage.hash "Abcdefg1")) "applicant".

Definition plain_text_user : User :=
  mkUser "Old" "old_1" "old@b.com" (Some "letmein") "applicant".

Definition broken_hash_user : User :=
  mkUser "Bad" "bad_1" "bad@b.com" (Some "$") "applicant".

Definition accounts : Storage.World :=
  Storage.quiet [jo; plain_text_user; broken_hash_user].

Definition padded_login : Obj :=
  [ ("email", " A@B.com "); ("password", " Abcdefg1 ") ].

(** The string is empty or starts with something else than white
    space. *)
Definition startsClean (s : string) : Prop :=
  match s with
  | EmptyString => True
  | String c _ => Js.isWhiteSpace c = false
  end.


(** The constraints of [registerUserSchema] on the raw values of a
    submission, each on the value as sanitised by then. *)
Definition accepted (n u e p : string) (r : option string) : bool :=
  (2 <=? String.length (Js.trim n)) && (String.length (Js.trim n) <=? 255)
  && (3 <=? String.length (Js.trim u)) && (String.length (Js.trim u) <=? 255)
  && Schema.userName_pattern (Js.trim u)
  && EmailFormat.pattern (Js.toLowerCase (Js.trim e))
  && (String.length (Js.toLowerCase (Js.trim e)) <=? 255)
  && (8 <=? String.length p) && Schema.password_pattern p
  && match r with Some r => isRole r | None => true end.

(** The login form values made of validated registration data. *)
Definition credentials (d : Schema.RegisterUserData) : Obj :=
  [ ("email", Schema.email_ d); ("password", Schema.password d) ].

(** The keys of an object, in order. *)
Definition keys (o : Obj) : list string := map fst o.

(** The runs of the registration action, by the answers of the
    environment. *)
Inductive RegistrationRun {W} (env : Env W) (w : W) (input : Obj)
  : Run Action.Outcome W -> Prop :=
| run_invalid i rest :
    Schema.registerUserSchema input = Zod.failure (i :: rest) ->
    RegistrationRun env w input
      (mkRun (inl (Action.mkOutcome "ERROR" (Zod.message i))) w [])
| run_query_threw d e w1 :
    Schema.registerUserSchema input = Zod.success d ->
    env (duplicate_query d) w = (inr e, w1) ->
    RegistrationRun env w input
      (mkRun (inl unknown_error) w1 [duplicate_query d])
| run_duplicate d user rest w1 :
    Schema.registerUserSchema input = Zod.success d ->
    env (duplicate_query d) w = (inl (user :: rest), w1) ->
    RegistrationRun env w input
      (mkRun (inl (if String.eqb (user_email user) (Schema.email_ d)
                   then email_exists else userName_exists))
         w1 [duplicate_query d])
| run_hash_threw d w1 e w2 :
    Schema.registerUserSchema input = Zod.success d ->
    env (duplicate_query d) w = (inl [], w1) ->
    env (argon2_hash (Schema.password d)) w1 = (inr e, w2) ->
    RegistrationRun env w input
      (mkRun (inl unknown_error) w2
         [duplicate_query d; argon2_hash (Schema.password d)])
| run_insert_threw d w1 h w2 e w3 :
    Schema.registerUserSchema input = Zod.success d ->
    env (duplicate_query d) w = (inl [], w1) ->
    env (argon2_hash (Schema.password d)) w1 = (inl h, w2) ->
    env (insertion d h) w2 = (inr e, w3) ->
    RegistrationRun env w input
      (mkRun (inl unknown_error) w3
         [duplicate_query d; argon2_hash (Schema.password d); insertion d h])
| run_inserted d w1 h w2 w3 :
    Schema.registerUserSchema input = Zod.success d ->
    env (duplicate_query d) w = (inl [], w1) ->
    env (argon2_hash (Schema.password d)) w1 = (inl h, w2) ->
    env (insertion d h) w2 = (inl tt, w3) ->
    RegistrationRun env w input
      (mkRun (inl registered) w3
         [duplicate_query d; argon2_hash (Schema.password d); insertion d h]).

(** A submission with every field padded or in capitals. *)
Definition padded_form : Obj :=
  [ ("name", " Jo "); ("userName", " jo_1 "); ("email", " A@B.com ");
    ("password", "Abcdefg1"); ("confirmPassword", "Abcdefg1") ].

Definition padded_form_data : Schema.RegisterUserWithConfirmData :=
  Schema.mkRegisterUserWithConfirmData padded_registration_data "Abcdefg1".

(** A registration whose password has white space around it. *)
Definition spaced_password_registration : Obj :=
  [ ("name", "Jo"); ("userName", "jo_1"); ("email", "a@b.com");
    ("password", " Abcdefg1 ") ].

Definition spaced_password_data : Schema.RegisterUserData :=
  Schema.mkRegisterUserData "Jo" "jo_1" "a@b.com" " Abcdefg1 " "applicant".

(** The row the storage keeps for validated data. *)
Definition account (d : Schema.RegisterUserData) : User :=
  mkUser (Schema.name d) (Schema.userName d) (Schema.email_ d)
    (Some (Storage.hash (Schema.password d))) (Schema.role d).

(* ================================================================== *)
(** ** Facts about the string operations *)

Lemma isWhiteSpace_lowerChar c :
  Js.isWhiteSpace (Js.lowerChar c) = Js.isWhiteSpace c.
Proof. destruct c as [[] [] [] [] [] [] [] []]; reflexivity. Qed.

Lemma lowerChar_idempotent c :
  Js.lowerChar (Js.lowerChar c) = Js.lowerChar c.
Proof. destruct c as [[] [] [] [] [] [] [] []]; reflexivity. Qed.

Lemma toLowerCase_idempotent s :
  Js.toLowerCase (Js.toLowerCase s) = Js.toLowerCase s.
Proof.
  induction s as [|c s IH]; [reflexivity|].
  cbn. rewrite lowerChar_idempotent, IH. reflexivity.
Qed.

Lemma length_toLowerCase s :
  String.length (Js.toLowerCase s) = String.length s.
Proof. induction s as [|c s IH]; [reflexivity|]. cbn. rewrite IH. reflexivity. Qed.

Lemma trimStart_toLowerCase s :
  Js.trimStart (Js.toLowerCase s) = Js.toLowerCase (Js.trimStart s).
Proof.
  induction s as [|c s IH]; [reflexivity|].
  cbn. rewrite isWhiteSpace_lowerChar.
  destruct (Js.isWhiteSpace c); [exact IH | reflexivity].
Qed.

Lemma trimEnd_toLowerCase s :
  Js.trimEnd (Js.toLowerCase s) = Js.toLowerCase (Js.trimEnd s).
Proof.
  induction s as [|c s IH]; [reflexivity|].
  cbn. rewrite IH, isWhiteSpace_lowerChar.
  destruct (Js.trimEnd s); cbn; [|reflexivity].
  destruct (Js.isWhiteSpace c); reflexivity.
Qed.

(** Trimming and lower-casing commute: the order in which the login
    page and the schemas apply them makes no difference. *)
Lemma trim_toLowerCase s :
  Js.trim (Js.toLowerCase s) = Js.toLowerCase (Js.trim s).
Proof.
  unfold Js.trim. rewrite trimStart_toLowerCase. apply trimEnd_toLowerCase.
Qed.

Lemma trimStart_startsClean s : startsClean (Js.trimStart s).
Proof.
  induction s as [|c s IH]; [exact I|].
  cbn. destruct (Js.isWhiteSpace c) eqn:E; [exact IH | exact E].
Qed.

Lemma trimStart_clean s : startsClean s -> Js.trimStart s = s.
Proof. destruct s as [|c s]; [reflexivity|]. cbn. intros ->. reflexivity. Qed.

Lemma trimEnd_startsClean s : startsClean s -> startsClean (Js.trimEnd s).
Proof.
  destruct s as [|c s]; [exact (fun H => H)|].
  cbn. intros E. destruct (Js.trimEnd s); [rewrite E|]; exact E.
Qed.

Lemma trimEnd_idempotent s : Js.trimEnd (Js.trimEnd s) = Js.trimEnd s.
Proof.
  induction s as [|c s IH]; [reflexivity|].
  cbn. destruct (Js.trimEnd s) as [|c' t] eqn:E.
  - destruct (Js.isWhiteSpace c) eqn:Ec; [reflexivity|].
    cbn. rewrite Ec. reflexivity.
  - cbn [Js.trimEnd] in *. rewrite IH. reflexivity.
Qed.

Lemma trim_idempotent s : Js.trim (Js.trim s) = Js.trim s.
Proof.
  unfold Js.trim.
  rewrite (trimStart_clean (Js.trimEnd (Js.trimStart s))).
  - apply trimEnd_idempotent.
  - apply trimEnd_startsClean, trimStart_startsClean.
Qed.

(* ================================================================== *)
(** ** What each field schema computes *)

Module FieldFacts.
Import Schema.

Lemma run_missing_string checks :
  Zod.run (Zod.z_string checks) None =
  missing.
Proof.
  unfold missing. cbn. induction checks as [|ch rest IH]; [reflexivity|].
  destruct ch; cbn; exact IH.
Qed.

Lemma run_name s :
  Zod.run name_schema (Some s) =
  Zod.mkPayload (Some (Js.trim s))
    (unless (2 <=? String.length (Js.trim s))
       (issue Zod.too_small "Name must be atleast 2 char long")
     ++ unless (String.length (Js.trim s) <=? 255)
       (issue Zod.too_big "Name must not excee 255 characters")).
Proof.
  unfold name_schema, Zod.run, Zod.runChecks, Zod.check, Zod.when,
    Zod.trim, Zod.min, Zod.max, Zod.push, unless, issue; cbn -[Nat.leb Js.trim].
  destruct (2 <=? _) eqn:E1; cbn -[Nat.leb Js.trim];
    destruct (_ <=? 255) eqn:E2; cbn -[Nat.leb Js.trim]; reflexivity.
Qed.

Ltac run_string :=
  unfold Zod.run, Zod.runChecks, Zod.check, Zod.when,
    Zod.trim, Zod.toLowerCase, Zod.min, Zod.max, Zod.regex, email,
    Zod.push, unless, issue;
  cbn -[Nat.leb Js.trim Js.toLowerCase EmailFormat.pattern
        userName_pattern password_pattern];
  repeat (match goal with
          | |- context [Nat.leb ?a ?b] => destruct (Nat.leb a b) eqn:?
          | |- context [EmailFormat.pattern ?a] =>
              destruct (EmailFormat.pattern a) eqn:?
          | |- context [userName_pattern ?a] =>
              destruct (userName_pattern a) eqn:?
          | |- context [password_pattern ?a] =>
              destruct (password_pattern a) eqn:?
          end;
          cbn -[Nat.leb Js.trim Js.toLowerCase EmailFormat.pattern
                userName_pattern password_pattern]);
  try congruence; reflexivity.

Lemma run_userName s :
  Zod.run userName_schema (Some s) =
  Zod.mkPayload (Some (Js.trim s))
    (unless (3 <=? String.length (Js.trim s))
       (issue Zod.too_small "Username must be atleast 3 characters long")
     ++ unless (String.length (Js.trim s) <=? 255)
       (issue Zod.too_big "Username must not exceed 255 characters")
     ++ unless (userName_pattern (Js.trim s))
       (issue Zod.invalid_format
          "Username  can only contain letters , numbers , underscores , and hyphens")).
Proof. unfold userName_schema. run_string. Qed.

Lemma run_email s :
  Zod.run email_schema (Some s) =
  Zod.mkPayload (Some (Js.toLowerCase (Js.trim s)))
    (unless (EmailFormat.pattern (Js.toLowerCase (Js.trim s)))
       (issue Zod.invalid_format "Please enter a valid email address")
     ++ unless (String.length (Js.toLowerCase (Js.trim s)) <=? 255)
       (issue Zod.too_big "Email must not exceed 255 characters")).
Proof. unfold email_schema. run_string. Qed.

Lemma run_password s :
  Zod.run password_schema (Some s) =
  Zod.mkPayload (Some s)
    (unless (8 <=? String.length s)
       (issue Zod.too_small "Password must be atleast character long")
     ++ unless (password_pattern s)
       (issue Zod.invalid_format
          "Password must contain at leaset one lowercase letter , one uppercase letter and one number")).
Proof. unfold password_schema. run_string. Qed.

Lemma run_login_email_cases v :
  Zod.run login_email_schema v = Zod.run email_schema v.
Proof. reflexivity. Qed.

Lemma run_login_password s :
  Zod.run login_password_schema (Some s) =
  Zod.mkPayload (Some s)
    (unless (8 <=? String.length s)
       (issue Zod.too_small "Password must be atlease 8 characters long")).
Proof. unfold login_password_schema. run_string. Qed.

Lemma run_role v :
  Zod.run role_schema v =
  match v with
  | None => Zod.mkPayload (Some "applicant") []
  | Some s =>
      Zod.mkPayload (Some s)
        (if isRole s then []
         else [Zod.mkIssue Zod.invalid_value []
                 "Role must be either an applicant or employer" false])
  end.
Proof.
  destruct v as [s|]; [|reflexivity].
  unfold role_schema, isRole; cbn -[String.eqb].
  rewrite orb_false_r. destruct (_ || _); reflexivity.
Qed.

End FieldFacts.

(* ================================================================== *)
(** ** What the object schemas compute *)

Lemma run_name_cases v :
  Zod.run Schema.name_schema v =
  match v with
  | None => missing
  | Some s =>
      Zod.mkPayload (Some (Js.trim s))
        (unless (2 <=? String.length (Js.trim s))
           (issue Zod.too_small "Name must be atleast 2 char long")
         ++ unless (String.length (Js.trim s) <=? 255)
           (issue Zod.too_big "Name must not excee 255 characters"))
  end.
Proof.
  destruct v; [apply FieldFacts.run_name | apply FieldFacts.run_missing_string].
Qed.

Lemma run_userName_cases v :
  Zod.run Schema.userName_schema v =
  match v with
  | None => missing
  | Some s =>
      Zod.mkPayload (Some (Js.trim s))
        (unless (3 <=? String.length (Js.trim s))
           (issue Zod.too_small "Username must be atleast 3 characters long")
         ++ unless (String.length (Js.trim s) <=? 255)
           (issue Zod.too_big "Username must not exceed 255 characters")
         ++ unless (Schema.userName_pattern (Js.trim s))
           (issue Zod.invalid_format
              "Username  can only contain letters , numbers , underscores , and hyphens"))
  end.
Proof.
  destruct v; [apply FieldFacts.run_userName | apply FieldFacts.run_missing_string].
Qed.

Lemma run_email_cases v :
  Zod.run Schema.email_schema v =
  match v with
  | None => missing
  | Some s =>
      Zod.mkPayload (Some (Js.toLowerCase (Js.trim s)))
        (unless (EmailFormat.pattern (Js.toLowerCase (Js.trim s)))
           (issue Zod.invalid_format "Please enter a valid email address")
         ++ unless (String.length (Js.toLowerCase (Js.trim s)) <=? 255)
           (issue Zod.too_big "Email must not exceed 255 characters"))
  end.
Proof.
  destruct v; [apply FieldFacts.run_email | apply FieldFacts.run_missing_string].
Qed.

Lemma run_password_cases v :
  Zod.run Schema.password_schema v =
  match v with
  | None => missing
  | Some s =>
      Zod.mkPayload (Some s)
        (unless (8 <=? String.length s)
           (issue Zod.too_small "Password must be atleast character long")
         ++ unless (Schema.password_pattern s)
           (issue Zod.invalid_format
              "Password must contain at leaset one lowercase letter , one uppercase letter and one number"))
  end.
Proof.
  destruct v; [apply FieldFacts.run_password | apply FieldFacts.run_missing_string].
Qed.

Lemma run_login_password_cases v :
  Zod.run Schema.login_password_schema v =
  match v with
  | None => missing
  | Some s =>
      Zod.mkPayload (Some s)
        (unless (8 <=? String.length s)
           (issue Zod.too_small "Password must be atlease 8 characters long"))
  end.
Proof.
  destruct v; [apply FieldFacts.run_login_password
              | apply FieldFacts.run_missing_string].
Qed.

Lemma run_confirmPassword_cases v :
  Zod.run Schema.confirmPassword_schema v =
  match v with
  | None => missing
  | Some s => Zod.mkPayload (Some s) []
  end.
Proof. destruct v; reflexivity. Qed.

Lemma prefixIssues_nil key iss :
  Zod.prefixIssues key iss = [] -> iss = [].
Proof. destruct iss; [reflexivity | discriminate]. Qed.

Lemma prefixIssues_app key a b :
  Zod.prefixIssues key (a ++ b)
  = Zod.prefixIssues key a ++ Zod.prefixIssues key b.
Proof. apply map_app. Qed.

Lemma safeParse_success {D} (p : Schema.ObjectPayload D) d :
  Schema.safeParse p = Zod.success d ->
  Schema.issues p = [] /\ Schema.data p = Some d.
Proof.
  unfold Schema.safeParse.
  destruct (Schema.issues p); destruct (Schema.data p); intros H;
    inversion H; auto.
Qed.

Lemma safeParse_failure {D} (p : Schema.ObjectPayload D) iss :
  Schema.safeParse p = Zod.failure iss -> Schema.issues p = iss.
Proof.
  unfold Schema.safeParse.
  destruct (Schema.issues p); destruct (Schema.data p); intros H;
    inversion H; auto.
Qed.

Lemma safeParse_clean {D} (p : Schema.ObjectPayload D) d :
  Schema.issues p = [] -> Schema.data p = Some d ->
  Schema.safeParse p = Zod.success d.
Proof. unfold Schema.safeParse. intros -> ->. reflexivity. Qed.

Lemma safeParse_dirty {D} (p : Schema.ObjectPayload D) :
  Schema.issues p <> [] -> Schema.safeParse p = Zod.failure (Schema.issues p).
Proof.
  unfold Schema.safeParse. destruct (Schema.issues p); [congruence|].
  destruct (Schema.data p); reflexivity.
Qed.

(** The payload of [registerUserSchema], field by field. *)
Lemma registerUserSchema_run_fields input :
  Schema.registerUserSchema_run input =
  let r_name := Zod.run Schema.name_schema (get input "name") in
  let r_userName := Zod.run Schema.userName_schema (get input "userName") in
  let r_email := Zod.run Schema.email_schema (get input "email") in
  let r_password := Zod.run Schema.password_schema (get input "password") in
  let r_role := Zod.run Schema.role_schema (get input "role") in
  Schema.mkObjectPayload
    match Zod.value r_name, Zod.value r_userName, Zod.value r_email,
          Zod.value r_password, Zod.value r_role with
    | Some n, Some u, Some e, Some p, Some r =>
        Some (Schema.mkRegisterUserData n u e p r)
    | _, _, _, _, _ => None
    end
    (Zod.prefixIssues "name" (Zod.issues r_name)
     ++ Zod.prefixIssues "userName" (Zod.issues r_userName)
     ++ Zod.prefixIssues "email" (Zod.issues r_email)
     ++ Zod.prefixIssues "password" (Zod.issues r_password)
     ++ Zod.prefixIssues "role" (Zod.issues r_role)).
Proof. reflexivity. Qed.

Ltac fields_of input :=
  rewrite ?registerUserSchema_run_fields;
  cbv zeta;
  rewrite ?run_name_cases, ?run_userName_cases, ?run_email_cases,
    ?run_password_cases, ?FieldFacts.run_role, ?run_confirmPassword_cases,
    ?run_login_password_cases.

(** A payload without issues has all four mandatory strings, and its
    data are their sanitised values. *)
Lemma registerUserSchema_clean input :
  Schema.issues (Schema.registerUserSchema_run input) = [] ->
  exists n u e p,
    get input "name" = Some n /\ get input "userName" = Some u /\
    get input "email" = Some e /\ get input "password" = Some p /\
    Schema.data (Schema.registerUserSchema_run input)
    = Some (Schema.mkRegisterUserData (Js.trim n) (Js.trim u)
              (Js.toLowerCase (Js.trim e)) p
              (match get input "role" with Some r => r | None => "applicant" end))
    /\ Schema.userName_pattern (Js.trim u) = true
    /\ Schema.password_pattern p = true
    /\ (8 <=? String.length p) = true
    /\ match get input "role" with Some r => isRole r = true | None => True end.
Proof.
  fields_of input.
  destruct (get input "name") as [n|]; [|discriminate].
  destruct (get input "userName") as [u|];
    [|cbn; intros H; apply app_eq_nil in H; destruct H as [_ H]; discriminate].
  destruct (get input "email") as [e|];
    [|cbn; intros H; apply app_eq_nil in H; destruct H as [_ H];
      apply app_eq_nil in H; destruct H as [_ H]; discriminate].
  destruct (get input "password") as [p|];
    [|cbn; intros H; apply app_eq_nil in H; destruct H as [_ H];
      apply app_eq_nil in H; destruct H as [_ H];
      apply app_eq_nil in H; destruct H as [_ H]; discriminate].
  cbn [Zod.value Zod.issues Schema.data Schema.issues].
  intros Hi.
  apply app_eq_nil in Hi; destruct Hi as [_ Hi].
  apply app_eq_nil in Hi; destruct Hi as [Hu Hi].
  apply app_eq_nil in Hi; destruct Hi as [_ Hi].
  apply app_eq_nil in Hi; destruct Hi as [Hp Hr].
  exists n, u, e, p. repeat split; auto.
  - destruct (get input "role"); reflexivity.
  - destruct (Schema.userName_pattern (Js.trim u)); [reflexivity|].
    apply prefixIssues_nil in Hu. unfold unless in Hu.
    apply app_eq_nil in Hu; destruct Hu as [_ Hu].
    apply app_eq_nil in Hu; destruct Hu as [_ Hu]. discriminate.
  - destruct (Schema.password_pattern p); [reflexivity|].
    apply prefixIssues_nil in Hp. unfold unless in Hp.
    apply app_eq_nil in Hp; destruct Hp as [_ Hp]. discriminate.
  - destruct (8 <=? String.length p); [reflexivity|].
    apply prefixIssues_nil in Hp. unfold unless in Hp.
    apply app_eq_nil in Hp; destruct Hp as [Hp _]. discriminate.
  - destruct (get input "role") as [r|]; [|exact I].
    cbn in Hr. destruct (isRole r); [reflexivity|discriminate].
Qed.

Lemma registerUserSchema_success input d :
  Schema.registerUserSchema input = Zod.success d ->
  exists n u e p,
    get input "name" = Some n /\ get input "userName" = Some u /\
    get input "email" = Some e /\ get input "password" = Some p /\
    d = Schema.mkRegisterUserData (Js.trim n) (Js.trim u)
          (Js.toLowerCase (Js.trim e)) p
          (match get input "role" with Some r => r | None => "applicant" end)
    /\ Schema.userName_pattern (Js.trim u) = true
    /\ Schema.password_pattern p = true
    /\ (8 <=? String.length p) = true
    /\ match get input "role" with Some r => isRole r = true | None => True end.
Proof.
  intros H. apply safeParse_success in H. destruct H as [Hi Hd].
  destruct (registerUserSchema_clean input Hi)
    as (n & u & e & p & Hn & Hu & He & Hp & Hdata & rest).
  exists n, u, e, p. repeat split; auto; try apply rest.
  rewrite Hdata in Hd. inversion Hd. reflexivity.
Qed.

(** [safeParse] answers with the data, or with at least one issue. *)
Lemma registerUserSchema_cases input :
  (exists d, Schema.registerUserSchema input = Zod.success d)
  \/ (exists i rest, Schema.registerUserSchema input = Zod.failure (i :: rest)).
Proof.
  unfold Schema.registerUserSchema.
  destruct (Schema.issues (Schema.registerUserSchema_run input)) as [|i rest] eqn:E.
  - destruct (registerUserSchema_clean input E)
      as (n & u & e & p & _ & _ & _ & _ & Hdata & _).
    left. eexists. apply safeParse_clean; eassumption.
  - right. exists i, rest. rewrite <- E. apply safeParse_dirty. congruence.
Qed.

Lemma userName_pattern_outside s c :
  In c (Js.chars s) -> Schema.isHandleChar c = false ->
  Schema.userName_pattern s = false.
Proof.
  intros Hin Hc. unfold Schema.userName_pattern.
  destruct (forallb Schema.isHandleChar (Js.chars s)) eqn:E.
  - rewrite forallb_forall in E. rewrite (E c Hin) in Hc. discriminate.
  - apply andb_false_r.
Qed.

(* ================================================================== *)
(** ** Properties of the rule sets *)

(** C8.  For every registration submission that validates, the e-mail
    of the validated data is the submitted e-mail trimmed and
    lower-cased, and the role of the validated data is "applicant"
    whenever the submission has no role. *)
Theorem registration_email_normalised_role_defaulted input d :
  Schema.registerUserSchema input = Zod.success d ->
  (exists e, get input "email" = Some e
             /\ Schema.email_ d = Js.toLowerCase (Js.trim e))
  /\ (get input "role" = None -> Schema.role d = "applicant").
Proof.
  intros H. apply registerUserSchema_success in H.
  destruct H as (n & u & e & p & _ & _ & He & _ & Hd & _).
  subst d. split.
  - exists e. split; [exact He | reflexivity].
  - intros Hr. cbn. rewrite Hr. reflexivity.
Qed.

Lemma registration_email_normalised_role_defaulted_witness :
  Schema.registerUserSchema padded_registration
    = Zod.success padded_registration_data
  /\ ((exists e, get padded_registration "email" = Some e
                 /\ Schema.email_ padded_registration_data
                    = Js.toLowerCase (Js.trim e))
      /\ (get padded_registration "role" = None
          -> Schema.role padded_registration_data = "applicant")).
Proof.
  split; [reflexivity|].
  apply (registration_email_normalised_role_defaulted
           padded_registration padded_registration_data).
  reflexivity.
Defined.

(** C9, as stated: a user name holding a character outside
    [A-Za-z0-9_-] always fails validation.  It does not: surrounding
    white space is trimmed before the pattern is tried. *)
Lemma userName_outside_character_can_validate :
  ~ (forall input u c,
       get input "userName" = Some u ->
       In c (Js.chars u) -> Schema.isHandleChar c = false ->
       exists iss, Schema.registerUserSchema input = Zod.failure iss).
Proof.
  intros H.
  destruct (H padded_registration " jo_1 " " "%char) as [iss Hiss];
    [reflexivity | left; reflexivity | reflexivity |].
  vm_compute in Hiss. discriminate.
Qed.

(** C9, amended.  For every registration submission whose user name,
    once trimmed of surrounding white space, holds a character outside
    [A-Za-z0-9_-], validation fails, and the issues include the one of
    the user-name pattern at the path of the user name. *)
Theorem userName_outside_character_rejected input u c :
  get input "userName" = Some u ->
  In c (Js.chars (Js.trim u)) -> Schema.isHandleChar c = false ->
  exists iss, Schema.registerUserSchema input = Zod.failure iss
              /\ In userName_format_issue iss.
Proof.
  intros Hu Hin Hc.
  pose proof (userName_pattern_outside _ _ Hin Hc) as Hpat.
  assert (Hmem : In userName_format_issue
                   (Schema.issues (Schema.registerUserSchema_run input))).
  { rewrite registerUserSchema_run_fields. cbv zeta.
    rewrite run_userName_cases, Hu, Hpat.
    cbn [Schema.issues Zod.issues].
    apply in_or_app; right. apply in_or_app; left.
    rewrite !prefixIssues_app.
    apply in_or_app; right. apply in_or_app; right.
    left. reflexivity. }
  exists (Schema.issues (Schema.registerUserSchema_run input)).
  split; [|exact Hmem].
  apply safeParse_dirty. intros E. rewrite E in Hmem. exact Hmem.
Qed.

Lemma userName_outside_character_rejected_witness :
  exists iss, Schema.registerUserSchema spaced_userName_registration
              = Zod.failure iss
              /\ In userName_format_issue iss.
Proof.
  apply (userName_outside_character_rejected
           spaced_userName_registration "jo 1" " "%char).
  - reflexivity.
  - vm_compute. right; right; left; reflexivity.
  - reflexivity.
Defined.

(** C5, as stated: the minimum length and the three character classes
    are one constraint with one message.  They are not: a short
    password holding all three classes and a long one in lower case
    only get different messages. *)
Lemma password_length_and_classes_not_one_message :
  ~ (exists m, forall p,
       (8 <=? String.length p) = false
       \/ Js.lookahead Js.isLower p = false
       \/ Js.lookahead Js.isUpper p = false
       \/ Js.lookahead Js.isDigit p = false ->
       messages Schema.password_schema p = [m]).
Proof.
  intros [m H].
  pose proof (H "Ab1" (or_introl eq_refl)) as H1.
  pose proof (H "abcdefgh" (or_intror (or_intror (or_introl eq_refl)))) as H2.
  vm_compute in H1, H2. congruence.
Qed.

(** C5, amended.  The three character classes (a lower-case letter, an
    upper-case letter and a digit, each somewhere on the first line of
    the password) are one constraint with one message, raised whenever
    any of the three is missing.  The minimum length of eight is a
    separate constraint, declared before it, with a message of its own;
    a password failing both gets both messages, the length first. *)
Theorem password_messages p :
  messages Schema.password_schema p
  = (if 8 <=? String.length p then [] else [password_length_message])
    ++ (if Js.lookahead Js.isLower p && Js.lookahead Js.isUpper p
           && Js.lookahead Js.isDigit p
        then [] else [password_classes_message])
  /\ (In password_classes_message (messages Schema.password_schema p)
      <-> ~ ((exists c, In c (Js.firstLine p) /\ Js.isLower c = true)
             /\ (exists c, In c (Js.firstLine p) /\ Js.isUpper c = true)
             /\ (exists c, In c (Js.firstLine p) /\ Js.isDigit c = true))).
Proof.
  assert (E : messages Schema.password_schema p
    = (if 8 <=? String.length p then [] else [password_length_message])
      ++ (if Js.lookahead Js.isLower p && Js.lookahead Js.isUpper p
             && Js.lookahead Js.isDigit p
          then [] else [password_classes_message])).
  { unfold messages. rewrite FieldFacts.run_password.
    cbn [Zod.issues]. rewrite map_app. unfold unless, Schema.password_pattern.
    destruct (8 <=? String.length p);
      destruct (Js.lookahead Js.isLower p && Js.lookahead Js.isUpper p
                && Js.lookahead Js.isDigit p); reflexivity. }
  split; [exact E|]. rewrite E. unfold Js.lookahead.
  rewrite <- !existsb_exists.
  destruct (existsb Js.isLower (Js.firstLine p));
    destruct (existsb Js.isUpper (Js.firstLine p));
    destruct (existsb Js.isDigit (Js.firstLine p));
    destruct (8 <=? String.length p); cbn;
    split; intros H;
    try (intros (? & ? & ?); discriminate);
    try (left; reflexivity); try (right; left; reflexivity);
    try (exfalso; apply H; repeat split; reflexivity);
    try (destruct H as [H|H]; [discriminate H | destruct H]);
    try (destruct H as [H|[H|[]]]; discriminate H);
    try (destruct H).
Qed.

Lemma hd_error_app {A} (a b : list A) :
  hd_error (a ++ b)
  = match hd_error a with Some x => Some x | None => hd_error b end.
Proof. destruct a; reflexivity. Qed.

Lemma name_violation input :
  reported "name" (Zod.run Schema.name_schema (get input "name"))
  = Spec.violation Spec.name_rules input.
Proof.
  rewrite run_name_cases. unfold Spec.violation, reported.
  cbn [Spec.key Spec.name_rules Spec.constraints Spec.sanitise Spec.fallback
       Spec.first_failed].
  destruct (get input "name") as [s|]; [|reflexivity].
  cbn [Zod.issues]. unfold unless.
  destruct (2 <=? _); [|reflexivity].
  destruct (_ <=? 255); reflexivity.
Qed.

Lemma userName_violation input :
  reported "userName" (Zod.run Schema.userName_schema (get input "userName"))
  = Spec.violation Spec.userName_rules input.
Proof.
  rewrite run_userName_cases. unfold Spec.violation, reported.
  cbn [Spec.key Spec.userName_rules Spec.constraints Spec.sanitise
       Spec.fallback Spec.first_failed].
  destruct (get input "userName") as [s|]; [|reflexivity].
  cbn [Zod.issues]. unfold unless.
  destruct (3 <=? _); [|reflexivity].
  destruct (_ <=? 255); [|reflexivity].
  destruct (Schema.userName_pattern _); reflexivity.
Qed.

Lemma email_violation input :
  reported "email" (Zod.run Schema.email_schema (get input "email"))
  = Spec.violation Spec.email_rules input.
Proof.
  rewrite run_email_cases. unfold Spec.violation, reported.
  cbn [Spec.key Spec.email_rules Spec.constraints Spec.sanitise
       Spec.fallback Spec.first_failed].
  destruct (get input "email") as [s|]; [|reflexivity].
  cbn [Zod.issues]. unfold unless.
  destruct (EmailFormat.pattern _); [|reflexivity].
  destruct (_ <=? 255); reflexivity.
Qed.

Lemma password_violation input :
  reported "password" (Zod.run Schema.password_schema (get input "password"))
  = Spec.violation Spec.password_rules input.
Proof.
  rewrite run_password_cases. unfold Spec.violation, reported.
  cbn [Spec.key Spec.password_rules Spec.constraints Spec.sanitise
       Spec.fallback Spec.first_failed].
  destruct (get input "password") as [s|]; [|reflexivity].
  cbn [Zod.issues]. unfold unless.
  destruct (8 <=? _); [|reflexivity].
  destruct (Schema.password_pattern _); reflexivity.
Qed.

Lemma role_violation input :
  reported "role" (Zod.run Schema.role_schema (get input "role"))
  = Spec.violation Spec.role_rules input.
Proof.
  rewrite FieldFacts.run_role. unfold Spec.violation, reported.
  cbn [Spec.key Spec.role_rules Spec.constraints Spec.sanitise
       Spec.fallback Spec.first_failed].
  destruct (get input "role") as [s|]; [|reflexivity].
  cbn [Zod.issues]. fold (isRole s). destruct (isRole s); reflexivity.
Qed.

(** The message of the first issue of [registerUserSchema] is the first
    violation in the order of the specification. *)
Lemma first_issue_first_violation input :
  hd_error (map Zod.message
              (Schema.issues (Schema.registerUserSchema_run input)))
  = Spec.first_violation input.
Proof.
  rewrite registerUserSchema_run_fields. cbv zeta. cbn [Schema.issues].
  rewrite !map_app, !hd_error_app.
  fold (reported "name" (Zod.run Schema.name_schema (get input "name"))).
  fold (reported "userName"
          (Zod.run Schema.userName_schema (get input "userName"))).
  fold (reported "email" (Zod.run Schema.email_schema (get input "email"))).
  fold (reported "password"
          (Zod.run Schema.password_schema (get input "password"))).
  fold (reported "role" (Zod.run Schema.role_schema (get input "role"))).
  rewrite name_violation, userName_violation, email_violation,
    password_violation, role_violation.
  unfold Spec.first_violation, Spec.fields, Spec.first_of.
  destruct (Spec.violation Spec.role_rules input); reflexivity.
Qed.

Lemma aborted_app a b :
  Zod.aborted (a ++ b) 0 = Zod.aborted a 0 || Zod.aborted b 0.
Proof. unfold Zod.aborted. cbn [skipn]. apply existsb_app. Qed.

Lemma aborted_prefixIssues key iss :
  Zod.aborted (Zod.prefixIssues key iss) 0 = Zod.aborted iss 0.
Proof.
  unfold Zod.aborted, Zod.prefixIssues. cbn [skipn].
  induction iss as [|i rest IH]; [reflexivity|]. cbn. rewrite IH. reflexivity.
Qed.

Lemma aborted_unless b c m : Zod.aborted (unless b (issue c m)) 0 = false.
Proof. destruct b; reflexivity. Qed.

Lemma aborted_field sch v :
  In sch [Schema.name_schema; Schema.userName_schema; Schema.email_schema;
          Schema.password_schema; Schema.confirmPassword_schema] ->
  Zod.aborted (Zod.issues (Zod.run sch v)) 0
  = match v with Some _ => false | None => true end.
Proof.
  intros [<-|[<-|[<-|[<-|[<-|[]]]]]].
  - rewrite run_name_cases. destruct v; [|reflexivity]. cbn [Zod.issues].
    rewrite !aborted_app, !aborted_unless. reflexivity.
  - rewrite run_userName_cases. destruct v; [|reflexivity]. cbn [Zod.issues].
    rewrite !aborted_app, !aborted_unless. reflexivity.
  - rewrite run_email_cases. destruct v; [|reflexivity]. cbn [Zod.issues].
    rewrite !aborted_app, !aborted_unless. reflexivity.
  - rewrite run_password_cases. destruct v; [|reflexivity]. cbn [Zod.issues].
    rewrite !aborted_app, !aborted_unless. reflexivity.
  - destruct v; reflexivity.
Qed.

Lemma aborted_role v :
  Zod.aborted (Zod.issues (Zod.run Schema.role_schema v)) 0
  = match v with Some r => negb (isRole r) | None => false end.
Proof.
  rewrite FieldFacts.run_role. destruct v as [r|]; [|reflexivity].
  cbn [Zod.issues]. destruct (isRole r); reflexivity.
Qed.

(** The payload of the fields of [registerUserWithConfirmSchema] is
    aborted exactly when the submission is not [typed]. *)
Lemma aborted_fields input :
  Zod.aborted
    (Schema.issues (Schema.registerUserSchema_run input)
     ++ Zod.prefixIssues "confirmPassword"
          (Zod.issues (Zod.run Schema.confirmPassword_schema
                         (get input "confirmPassword")))) 0
  = negb (typed input).
Proof.
  rewrite registerUserSchema_run_fields. cbv zeta. cbn [Schema.issues].
  rewrite !aborted_app, !aborted_prefixIssues, aborted_role.
  rewrite !aborted_field by (cbn; tauto).
  unfold typed.
  destruct (get input "name"), (get input "userName"), (get input "email"),
    (get input "password"), (get input "confirmPassword"),
    (get input "role"); cbn; try reflexivity;
    rewrite ?orb_false_r, ?orb_true_r; reflexivity.
Qed.

Lemma typed_data input :
  typed input = true ->
  exists b p c,
    Schema.data (Schema.registerUserSchema_run input) = Some b
    /\ get input "password" = Some p /\ get input "confirmPassword" = Some c
    /\ Schema.password b = p.
Proof.
  unfold typed. rewrite registerUserSchema_run_fields. cbv zeta.
  rewrite run_name_cases, run_userName_cases, run_email_cases,
    run_password_cases, FieldFacts.run_role.
  destruct (get input "name"); [|discriminate].
  destruct (get input "userName"); [|discriminate].
  destruct (get input "email"); [|discriminate].
  destruct (get input "password") as [p|]; [|discriminate].
  destruct (get input "confirmPassword") as [c|]; [|discriminate].
  intros _. cbn [Schema.data Zod.value].
  destruct (get input "role"); eexists _, p, c; repeat split; reflexivity.
Qed.

(** The issues of [registerUserWithConfirmSchema]: those of the fields,
    then the one of the refinement when it is evaluated and fails. *)
Lemma registerUserWithConfirmSchema_issues input :
  Schema.issues (Schema.registerUserWithConfirmSchema_run input)
  = Schema.issues (Schema.registerUserSchema_run input)
    ++ Zod.prefixIssues "confirmPassword"
         (Zod.issues (Zod.run Schema.confirmPassword_schema
                        (get input "confirmPassword")))
    ++ (if typed input && passwords_differ input then [mismatch] else []).
Proof.
  unfold Schema.registerUserWithConfirmSchema_run. cbv zeta.
  rewrite aborted_fields.
  destruct (typed input) eqn:T; cbn [negb andb].
  - destruct (typed_data input T) as (b & p & c & Hb & Hp & Hc & Hbp).
    unfold passwords_differ. rewrite Hb, Hp, Hc.
    cbn [Zod.run Schema.confirmPassword_schema Zod.runChecks Zod.value
         Schema.base Schema.confirmPassword Schema.password].
    rewrite Hbp.
    destruct (String.eqb p c);
      cbn [negb Schema.issues Zod.issues Zod.prefixIssues map];
      rewrite ?app_nil_r; reflexivity.
  - cbn [Schema.issues]. rewrite app_nil_r. reflexivity.
Qed.

(* ================================================================== *)
(** ** How the actions run *)

Lemma registrationAction_invalid {W} (env : Env W) w input i rest :
  Schema.registerUserSchema input = Zod.failure (i :: rest) ->
  Action.registrationAction input env w
  = mkRun (inl (Action.mkOutcome "ERROR" (Zod.message i))) w [].
Proof.
  intros H. unfold Action.registrationAction, try_catch. rewrite H. reflexivity.
Qed.

Lemma registrationAction_query_threw {W} (env : Env W) w input d e w1 :
  Schema.registerUserSchema input = Zod.success d ->
  env (duplicate_query d) w = (inr e, w1) ->
  Action.registrationAction input env w
  = mkRun (inl unknown_error) w1 [duplicate_query d].
Proof.
  intros Hd H. unfold Action.registrationAction, try_catch, bind, await, ret.
  rewrite Hd. unfold duplicate_query in *. rewrite H. reflexivity.
Qed.

Lemma registrationAction_duplicate {W} (env : Env W) w input d user rest w1 :
  Schema.registerUserSchema input = Zod.success d ->
  env (duplicate_query d) w = (inl (user :: rest), w1) ->
  Action.registrationAction input env w
  = mkRun (inl (if String.eqb (user_email user) (Schema.email_ d)
                then email_exists else userName_exists))
      w1 [duplicate_query d].
Proof.
  intros Hd H. unfold Action.registrationAction, try_catch, bind, await, ret.
  rewrite Hd. unfold duplicate_query in *. rewrite H.
  cbn [result world trace].
  destruct (String.eqb (user_email user) (Schema.email_ d)); reflexivity.
Qed.

Lemma registrationAction_hash_threw {W} (env : Env W) w input d w1 e w2 :
  Schema.registerUserSchema input = Zod.success d ->
  env (duplicate_query d) w = (inl [], w1) ->
  env (argon2_hash (Schema.password d)) w1 = (inr e, w2) ->
  Action.registrationAction input env w
  = mkRun (inl unknown_error) w2
      [duplicate_query d; argon2_hash (Schema.password d)].
Proof.
  intros Hd H1 H2.
  unfold Action.registrationAction, try_catch, bind, await, ret.
  rewrite Hd. unfold duplicate_query in *. rewrite H1.
  cbn [result world trace]. rewrite H2. reflexivity.
Qed.

Lemma registrationAction_insert_threw {W} (env : Env W) w input d w1 h w2 e w3 :
  Schema.registerUserSchema input = Zod.success d ->
  env (duplicate_query d) w = (inl [], w1) ->
  env (argon2_hash (Schema.password d)) w1 = (inl h, w2) ->
  env (insertion d h) w2 = (inr e, w3) ->
  Action.registrationAction input env w
  = mkRun (inl unknown_error) w3
      [duplicate_query d; argon2_hash (Schema.password d); insertion d h].
Proof.
  intros Hd H1 H2 H3.
  unfold Action.registrationAction, try_catch, bind, await, ret.
  rewrite Hd. unfold duplicate_query, insertion in *. rewrite H1.
  cbn [result world trace]. rewrite H2.
  cbn [result world trace]. rewrite H3. reflexivity.
Qed.

Lemma registrationAction_inserted {W} (env : Env W) w input d w1 h w2 w3 :
  Schema.registerUserSchema input = Zod.success d ->
  env (duplicate_query d) w = (inl [], w1) ->
  env (argon2_hash (Schema.password d)) w1 = (inl h, w2) ->
  env (insertion d h) w2 = (inl tt, w3) ->
  Action.registrationAction input env w
  = mkRun (inl registered) w3
      [duplicate_query d; argon2_hash (Schema.password d); insertion d h].
Proof.
  intros Hd H1 H2 H3.
  unfold Action.registrationAction, try_catch, bind, await, ret.
  rewrite Hd. unfold duplicate_query, insertion in *. rewrite H1.
  cbn [result world trace]. rewrite H2.
  cbn [result world trace]. rewrite H3. reflexivity.
Qed.

(** With no record found, the action goes on to hash the password and
    cannot end in a duplicate outcome. *)
Lemma registrationAction_proceeds {W} (env : Env W) w input d w1 :
  Schema.registerUserSchema input = Zod.success d ->
  env (duplicate_query d) w = (inl [], w1) ->
  result (Action.registrationAction input env w) <> inl email_exists
  /\ result (Action.registrationAction input env w) <> inl userName_exists
  /\ exists more,
       trace (Action.registrationAction input env w)
       = duplicate_query d :: argon2_hash (Schema.password d) :: more.
Proof.
  intros Hd Hq.
  destruct (env (argon2_hash (Schema.password d)) w1) as [[h|e] w2] eqn:Hh.
  - destruct (env (insertion d h) w2) as [[[]|e] w3] eqn:Hi.
    + rewrite (registrationAction_inserted env w input d w1 h w2 w3 Hd Hq Hh Hi).
      cbn. repeat split; try discriminate. eexists; reflexivity.
    + rewrite (registrationAction_insert_threw env w input d w1 h w2 e w3
                 Hd Hq Hh Hi).
      cbn. repeat split; try discriminate. eexists; reflexivity.
  - rewrite (registrationAction_hash_threw env w input d w1 e w2 Hd Hq Hh).
    cbn. repeat split; try discriminate. eexists; reflexivity.
Qed.

(** The calls of a registration that ends in a validation error or in a
    duplicate outcome: none, or the duplicate query alone. *)
Lemma registrationAction_error_trace {W} (env : Env W) w input :
  (exists iss, Schema.registerUserSchema input = Zod.failure iss)
  \/ result (Action.registrationAction input env w) = inl email_exists
  \/ result (Action.registrationAction input env w) = inl userName_exists ->
  (trace (Action.registrationAction input env w) = []
   /\ world (Action.registrationAction input env w) = w)
  \/ exists d rows w1,
       Schema.registerUserSchema input = Zod.success d
       /\ env (duplicate_query d) w = (inl rows, w1)
       /\ trace (Action.registrationAction input env w) = [duplicate_query d]
       /\ world (Action.registrationAction input env w) = w1.
Proof.
  intros H.
  destruct (registerUserSchema_cases input) as [[d Hd]|(i & rest & Hi)].
  - right.
    destruct (env (duplicate_query d) w) as [[rows|e] w1] eqn:Hq.
    + destruct rows as [|user more].
      * destruct (registrationAction_proceeds env w input d w1 Hd Hq)
          as (N1 & N2 & _).
        destruct H as [[iss Hf]|[H|H]]; [congruence | tauto | tauto].
      * exists d, (user :: more), w1.
        rewrite (registrationAction_duplicate env w input d user more w1 Hd Hq).
        cbn. auto.
    + rewrite (registrationAction_query_threw env w input d e w1 Hd Hq) in H.
      cbn in H. destruct H as [[iss Hf]|[H|H]]; [congruence| |]; discriminate H.
  - left. rewrite (registrationAction_invalid env w input i rest Hi). cbn. auto.
Qed.

(* ================================================================== *)
(** ** Properties of registration *)

(** C7, as stated: the rule on the two passwords is evaluated only
    after all per-field rules pass.  It is not: a password that is too
    short and differs from its confirmation gets the issues of the
    password and the one of the refinement. *)
Lemma mismatch_reported_beside_field_issues :
  ~ (forall input,
       In mismatch (Schema.issues (Schema.registerUserWithConfirmSchema_run input)) ->
       Schema.issues (Schema.registerUserSchema_run input) = []).
Proof.
  intros H.
  assert (E : Schema.issues
                (Schema.registerUserSchema_run short_mismatched_registration)
              = []).
  { apply H. vm_compute. right; right; left; reflexivity. }
  vm_compute in E. discriminate.
Qed.

(** C7, amended.  For every registration submission the action finds
    invalid, the outcome is an ERROR with exactly one message, that of
    the first violation in field-declaration order and, within a field,
    constraint-declaration order; no collaborator is called.  In the
    rule set with the confirmation, the rule on the two passwords comes
    after the rules of all fields and is evaluated whenever every field
    has a value of its type (also when constraints of fields are
    violated); its issue is the last one and sits at the path of the
    confirmation field. *)
Theorem first_violation_only {W} (env : Env W) w input :
  (forall iss,
     Schema.registerUserSchema input = Zod.failure iss ->
     exists m,
       Spec.first_violation input = Some m
       /\ Action.registrationAction input env w
          = mkRun (inl (Action.mkOutcome "ERROR" m)) w [])
  /\ Schema.issues (Schema.registerUserWithConfirmSchema_run input)
     = Schema.issues (Schema.registerUserSchema_run input)
       ++ Zod.prefixIssues "confirmPassword"
            (Zod.issues (Zod.run Schema.confirmPassword_schema
                           (get input "confirmPassword")))
       ++ (if typed input && passwords_differ input then [mismatch] else [])
  /\ Zod.path mismatch = ["confirmPassword"].
Proof.
  split; [|split; [apply registerUserWithConfirmSchema_issues | reflexivity]].
  intros iss Hf.
  destruct (registerUserSchema_cases input) as [[d Hd]|(i & rest & Hi)];
    [congruence|].
  exists (Zod.message i). split.
  - rewrite <- first_issue_first_violation.
    apply safeParse_failure in Hi. rewrite Hi. reflexivity.
  - apply registrationAction_invalid with (rest := rest). exact Hi.
Qed.

Lemma first_violation_only_witness :
  exists m,
    Spec.first_violation short_name_registration = Some m
    /\ Action.registrationAction short_name_registration
         Storage.env (Storage.quiet [])
       = mkRun (inl (Action.mkOutcome "ERROR" m)) (Storage.quiet []) [].
Proof.
  apply (proj1 (first_violation_only Storage.env (Storage.quiet [])
                  short_name_registration)
           (Schema.issues (Schema.registerUserSchema_run short_name_registration))).
  reflexivity.
Defined.

(** C4.  For every validated registration submission for which the
    duplicate query answers with at least one record, the outcome is an
    ERROR decided by the first record alone: "Email Already Exists" if
    its e-mail equals the submitted one, "Username Already Exists"
    otherwise.  If the query answers with no record, no duplicate is
    reported and the flow goes on to hash the password. *)
Theorem duplicate_decided_by_first_record
  {W} (env : Env W) w input d rows w1 :
  Schema.registerUserSchema input = Zod.success d ->
  env (duplicate_query d) w = (inl rows, w1) ->
  match rows with
  | user :: _ =>
      Action.registrationAction input env w
      = mkRun (inl (if String.eqb (user_email user) (Schema.email_ d)
                    then email_exists else userName_exists))
          w1 [duplicate_query d]
  | [] =>
      result (Action.registrationAction input env w) <> inl email_exists
      /\ result (Action.registrationAction input env w) <> inl userName_exists
      /\ exists more,
           trace (Action.registrationAction input env w)
           = duplicate_query d :: argon2_hash (Schema.password d) :: more
  end.
Proof.
  intros Hd Hq. destruct rows as [|user rest].
  - apply registrationAction_proceeds with (w1 := w1); assumption.
  - apply registrationAction_duplicate with (rest := rest); assumption.
Qed.

Lemma duplicate_decided_by_first_record_witness :
  Action.registrationAction valid_registration Storage.env
    (Storage.quiet [same_userName_user; same_email_user])
  = mkRun (inl userName_exists)
      (Storage.quiet [same_userName_user; same_email_user])
      [duplicate_query valid_registration_data].
Proof.
  apply (duplicate_decided_by_first_record Storage.env
           (Storage.quiet [same_userName_user; same_email_user])
           valid_registration valid_registration_data
           [same_userName_user; same_email_user]
           (Storage.quiet [same_userName_user; same_email_user]));
    reflexivity.
Defined.

(** C10.  Whenever registration ends in a validation error or in a
    duplicate outcome ("Email Already Exists" / "Username Already
    Exists"), no hash was computed and no insert was requested; against
    the storage environment, with no other session writing, the table
    is what it was. *)
Theorem error_paths_write_nothing :
  (forall W (env : Env W) w input,
     (exists iss, Schema.registerUserSchema input = Zod.failure iss)
     \/ result (Action.registrationAction input env w) = inl email_exists
     \/ result (Action.registrationAction input env w) = inl userName_exists ->
     forallb (fun c => negb (isHash c || isInsert c))
       (trace (Action.registrationAction input env w)) = true)
  /\ (forall t input,
        (exists iss, Schema.registerUserSchema input = Zod.failure iss)
        \/ result (Action.registrationAction input Storage.env (Storage.quiet t))
           = inl email_exists
        \/ result (Action.registrationAction input Storage.env (Storage.quiet t))
           = inl userName_exists ->
        Storage.table
          (world (Action.registrationAction input Storage.env (Storage.quiet t)))
        = t).
Proof.
  split.
  - intros W env w input H.
    destruct (registrationAction_error_trace env w input H)
      as [[-> _]|(d & rows & w1 & _ & _ & -> & _)]; reflexivity.
  - intros t input H.
    destruct (registrationAction_error_trace Storage.env (Storage.quiet t) input H)
      as [[_ ->]|(d & rows & w1 & _ & Hq & _ & ->)]; [reflexivity|].
    cbn in Hq. inversion Hq. reflexivity.
Qed.

Lemma error_paths_write_nothing_witness :
  forallb (fun c => negb (isHash c || isInsert c))
    (trace (Action.registrationAction valid_registration Storage.env
              (Storage.quiet [same_email_user]))) = true
  /\ Storage.table
       (world (Action.registrationAction valid_registration Storage.env
                 (Storage.quiet [same_email_user])))
     = [same_email_user].
Proof.
  split.
  - apply (proj1 error_paths_write_nothing Storage.World Storage.env
             (Storage.quiet [same_email_user]) valid_registration).
    right; left; reflexivity.
  - apply (proj2 error_paths_write_nothing [same_email_user] valid_registration).
    right; left; reflexivity.
Defined.

(** C3, as stated: an insert failing with a uniqueness violation gives
    "Email Already Exists" or "Username Already Exists".  It does not:
    when another session takes the e-mail between the duplicate query
    and the insert, the violation is caught with every other error. *)
Lemma uniqueness_violation_not_mapped_to_duplicate :
  ~ (forall (W : Type) (env : Env W) w input d w1 h w2 c w3,
       Schema.registerUserSchema input = Zod.success d ->
       env (duplicate_query d) w = (inl [], w1) ->
       env (argon2_hash (Schema.password d)) w1 = (inl h, w2) ->
       env (insertion d h) w2 = (inr (UniqueViolation c), w3) ->
       result (Action.registrationAction input env w) = inl email_exists
       \/ result (Action.registrationAction input env w) = inl userName_exists).
Proof.
  intros H.
  destruct (H Storage.World Storage.env raced valid_registration
              valid_registration_data
              (Storage.mkWorld [] [[same_email_user]])
              (Storage.hash "Abcdefg1")
              (Storage.mkWorld [same_email_user] [])
              "users_email_unique"
              (Storage.mkWorld [same_email_user] []))
    as [E|E]; try reflexivity; vm_compute in E; discriminate E.
Qed.

(** C3, amended.  If the insert of a registration fails, with a
    uniqueness violation or with any other error, the outcome is the
    generic ERROR "Unknown Error Occured ! Please Try Again Later". *)
Theorem insert_failure_is_unknown_error
  {W} (env : Env W) w input d w1 h w2 e w3 :
  Schema.registerUserSchema input = Zod.success d ->
  env (duplicate_query d) w = (inl [], w1) ->
  env (argon2_hash (Schema.password d)) w1 = (inl h, w2) ->
  env (insertion d h) w2 = (inr e, w3) ->
  result (Action.registrationAction input env w) = inl unknown_error
  /\ world (Action.registrationAction input env w) = w3.
Proof.
  intros Hd Hq Hh Hi.
  rewrite (registrationAction_insert_threw env w input d w1 h w2 e w3
             Hd Hq Hh Hi).
  split; reflexivity.
Qed.

Lemma insert_failure_is_unknown_error_witness :
  result (Action.registrationAction valid_registration Storage.env raced)
  = inl unknown_error
  /\ world (Action.registrationAction valid_registration Storage.env raced)
     = Storage.mkWorld [same_email_user] [].
Proof.
  apply (insert_failure_is_unknown_error Storage.env raced valid_registration
           valid_registration_data
           (Storage.mkWorld [] [[same_email_user]])
           (Storage.hash "Abcdefg1")
           (Storage.mkWorld [same_email_user] [])
           (UniqueViolation "users_email_unique")
           (Storage.mkWorld [same_email_user] []));
    reflexivity.
Defined.

Lemma startsWith_dollar_nonempty h :
  Js.startsWith h "$" = true -> String.eqb h "" = false.
Proof. destruct h; [discriminate | reflexivity]. Qed.

Lemma loginUserAction_query_threw {W} (env : Env W) w formData e w1 :
  env (login_query formData) w = (inr e, w1) ->
  Action.loginUserAction formData env w
  = mkRun (inl unknown_error) w1 [login_query formData].
Proof.
  intros H. unfold Action.loginUserAction, try_catch, bind, await, ret.
  unfold login_query in *. rewrite H. reflexivity.
Qed.

Lemma loginUserAction_no_record {W} (env : Env W) w formData w1 :
  env (login_query formData) w = (inl [], w1) ->
  Action.loginUserAction formData env w
  = mkRun (inl invalid_credentials) w1 [login_query formData].
Proof.
  intros H. unfold Action.loginUserAction, try_catch, bind, await, ret.
  unfold login_query in *. rewrite H. reflexivity.
Qed.

Lemma loginUserAction_guard {W} (env : Env W) w formData user rest w1 :
  env (login_query formData) w = (inl (user :: rest), w1) ->
  rejected_by_guard (user_password user) ->
  Action.loginUserAction formData env w
  = mkRun (inl invalid_credentials) w1 [login_query formData].
Proof.
  intros H G. unfold Action.loginUserAction, try_catch, bind, await, ret.
  unfold login_query in *. rewrite H. cbn [result world trace].
  destruct G as [->|[->|(h & -> & Hh)]]; [reflexivity | reflexivity |].
  rewrite Hh, orb_true_r. reflexivity.
Qed.

Lemma loginUserAction_verify_threw
  {W} (env : Env W) w formData user rest w1 h e w2 :
  env (login_query formData) w = (inl (user :: rest), w1) ->
  user_password user = Some h ->
  Js.startsWith h "$" = true ->
  env (argon2_verify h (Action.form_password formData)) w1 = (inr e, w2) ->
  Action.loginUserAction formData env w
  = mkRun (inl unknown_error) w2
      [login_query formData; argon2_verify h (Action.form_password formData)].
Proof.
  intros H Hp Hs Hv. unfold Action.loginUserAction, try_catch, bind, await, ret.
  unfold login_query in *. rewrite H. cbn [result world trace].
  rewrite Hp. unfold truthy. rewrite Hs, (startsWith_dollar_nonempty h Hs).
  cbn [negb orb]. rewrite Hv. reflexivity.
Qed.

Lemma loginUserAction_verified
  {W} (env : Env W) w formData user rest w1 h (b : bool) w2 :
  env (login_query formData) w = (inl (user :: rest), w1) ->
  user_password user = Some h ->
  Js.startsWith h "$" = true ->
  env (argon2_verify h (Action.form_password formData)) w1 = (inl b, w2) ->
  Action.loginUserAction formData env w
  = mkRun (inl (if b then logged_in else invalid_credentials)) w2
      [login_query formData; argon2_verify h (Action.form_password formData)].
Proof.
  intros H Hp Hs Hv. unfold Action.loginUserAction, try_catch, bind, await, ret.
  unfold login_query in *. rewrite H. cbn [result world trace].
  rewrite Hp. unfold truthy. rewrite Hs, (startsWith_dollar_nonempty h Hs).
  cbn [negb orb]. rewrite Hv. cbn [result world trace].
  destruct b; reflexivity.
Qed.

(** A stored password either fails the safeguard or starts with a
    dollar. *)
Lemma guard_cases (stored : option string) :
  rejected_by_guard stored
  \/ exists h, stored = Some h /\ Js.startsWith h "$" = true.
Proof.
  destruct stored as [h|]; [|left; left; reflexivity].
  destruct (Js.startsWith h "$") eqn:E.
  - right. exists h. auto.
  - left. right. right. exists h. auto.
Qed.

(** Every run of the login action, by the answers of the environment. *)
Lemma loginUserAction_cases {W} (env : Env W) w formData :
  (exists o w1, Action.loginUserAction formData env w
                = mkRun (inl o) w1 [login_query formData]
                /\ (o = unknown_error \/ o = invalid_credentials))
  \/ exists o w2 h,
       Action.loginUserAction formData env w
       = mkRun (inl o) w2
           [login_query formData;
            argon2_verify h (Action.form_password formData)]
       /\ Js.startsWith h "$" = true.
Proof.
  destruct (env (login_query formData) w) as [[rows|e] w1] eqn:Hq.
  - destruct rows as [|user rest].
    + left. exists invalid_credentials, w1. split; [|auto].
      apply loginUserAction_no_record. exact Hq.
    + destruct (guard_cases (user_password user)) as [G|(h & Hp & Hs)].
      * left. exists invalid_credentials, w1. split; [|auto].
        apply loginUserAction_guard with (user := user) (rest := rest);
          assumption.
      * right.
        destruct (env (argon2_verify h (Action.form_password formData)) w1)
          as [[b|e] w2] eqn:Hv.
        -- eexists _, w2, h. split; [|exact Hs].
           apply loginUserAction_verified with (user := user) (rest := rest)
                                               (w1 := w1) (b := b);
             assumption.
        -- eexists _, w2, h. split; [|exact Hs].
           apply loginUserAction_verify_threw with (user := user) (rest := rest)
                                                   (w1 := w1) (e := e);
             assumption.
  - left. exists unknown_error, w1. split; [|auto].
    apply loginUserAction_query_threw with (e := e). exact Hq.
Qed.

(* ================================================================== *)
(** ** Properties of login *)

(** C1.  For every login submission, the three failure causes (no
    stored record for the submitted e-mail; a stored password that
    fails the safeguard, being absent, empty or without the leading
    dollar; verification answering false) give exactly the same
    outcome, ERROR with "Invalid email or password". *)
Theorem login_failures_same_outcome {W} (env : Env W) w formData :
  LoginFailure env w formData ->
  result (Action.loginUserAction formData env w) = inl invalid_credentials.
Proof.
  intros [w1 Hq|user rest w1 Hq G|user rest w1 h w2 Hq Hp Hs Hv].
  - rewrite (loginUserAction_no_record env w formData w1 Hq). reflexivity.
  - rewrite (loginUserAction_guard env w formData user rest w1 Hq G).
    reflexivity.
  - rewrite (loginUserAction_verified env w formData user rest w1 h false w2
               Hq Hp Hs Hv).
    reflexivity.
Qed.

Lemma login_failures_same_outcome_witness :
  result (Action.loginUserAction
            (Action.mkLoginFormData "nobody@b.com" "Abcdefg1")
            Storage.env accounts) = inl invalid_credentials
  /\ result (Action.loginUserAction
               (Action.mkLoginFormData "old@b.com" "letmein")
               Storage.env accounts) = inl invalid_credentials
  /\ result (Action.loginUserAction
               (Action.mkLoginFormData "a@b.com" "Wrong-pw1")
               Storage.env accounts) = inl invalid_credentials.
Proof.
  split; [|split].
  - apply (login_failures_same_outcome Storage.env accounts).
    apply no_record with (w1 := accounts). reflexivity.
  - apply (login_failures_same_outcome Storage.env accounts).
    apply guard_rejected with (user := plain_text_user)
                              (rest := []) (w1 := accounts).
    + reflexivity.
    + right; right. exists "letmein". split; reflexivity.
  - apply (login_failures_same_outcome Storage.env accounts).
    apply verify_false with (user := jo) (rest := []) (w1 := accounts)
                            (h := Storage.hash "Abcdefg1") (w2 := accounts);
      reflexivity.
Defined.

(** C2, as stated: an error inside verification is treated as a
    non-match and never mapped to another outcome.  It is not: a stored
    value that starts with a dollar passes the safeguard, and when
    verification throws on it the outcome is the generic unknown
    error. *)
Lemma verify_error_not_a_mismatch :
  ~ (forall (W : Type) (env : Env W) w formData user rest w1 h e w2,
       env (login_query formData) w = (inl (user :: rest), w1) ->
       user_password user = Some h ->
       env (argon2_verify h (Action.form_password formData)) w1 = (inr e, w2) ->
       result (Action.loginUserAction formData env w) = inl invalid_credentials).
Proof.
  intros H.
  pose proof (H Storage.World Storage.env accounts
                (Action.mkLoginFormData "bad@b.com" "Abcdefg1")
                broken_hash_user [] accounts "$"
                (TypeError "pchstr contains too few fields") accounts
                eq_refl eq_refl eq_refl) as E.
  vm_compute in E. discriminate E.
Qed.

(** C2, amended.  The login action never raises.  A stored password
    that is absent, empty or without the leading dollar gives the
    invalid-credential outcome without verification being called.  A
    stored password with the leading dollar is handed to verification:
    an answer of false gives the invalid-credential outcome, and an
    error thrown by verification is caught and gives the generic
    unknown-error outcome. *)
Theorem login_never_raises {W} (env : Env W) w formData :
  (exists o, result (Action.loginUserAction formData env w) = inl o)
  /\ (forall user rest w1,
        env (login_query formData) w = (inl (user :: rest), w1) ->
        rejected_by_guard (user_password user) ->
        result (Action.loginUserAction formData env w) = inl invalid_credentials
        /\ existsb isVerify (trace (Action.loginUserAction formData env w))
           = false)
  /\ (forall user rest w1 h,
        env (login_query formData) w = (inl (user :: rest), w1) ->
        user_password user = Some h ->
        Js.startsWith h "$" = true ->
        forall answer w2,
          env (argon2_verify h (Action.form_password formData)) w1
          = (answer, w2) ->
          result (Action.loginUserAction formData env w)
          = inl match answer with
                | inl true => logged_in
                | inl false => invalid_credentials
                | inr _ => unknown_error
                end).
Proof.
  split; [|split].
  - destruct (loginUserAction_cases env w formData)
      as [(o & w1 & -> & _)|(o & w2 & h & -> & _)]; exists o; reflexivity.
  - intros user rest w1 Hq G.
    rewrite (loginUserAction_guard env w formData user rest w1 Hq G).
    split; reflexivity.
  - intros user rest w1 h Hq Hp Hs [[|]|e] w2 Hv.
    + rewrite (loginUserAction_verified env w formData user rest w1 h true w2
                 Hq Hp Hs Hv). reflexivity.
    + rewrite (loginUserAction_verified env w formData user rest w1 h false w2
                 Hq Hp Hs Hv). reflexivity.
    + rewrite (loginUserAction_verify_threw env w formData user rest w1 h e w2
                 Hq Hp Hs Hv). reflexivity.
Qed.

Lemma login_never_raises_witness :
  result (Action.loginUserAction
            (Action.mkLoginFormData "bad@b.com" "Abcdefg1")
            Storage.env accounts)
  = inl unknown_error.
Proof.
  apply (proj2 (proj2 (login_never_raises Storage.env accounts
                         (Action.mkLoginFormData "bad@b.com" "Abcdefg1")))
           broken_hash_user [] accounts "$" eq_refl eq_refl eq_refl
           (inr (TypeError "pchstr contains too few fields")) accounts).
  reflexivity.
Defined.

Lemma loginUserSchema_success values d :
  Schema.loginUserSchema values = Zod.success d ->
  exists e p,
    get values "email" = Some e /\ get values "password" = Some p
    /\ d = Schema.mkLoginUserData (Js.toLowerCase (Js.trim e)) p
    /\ EmailFormat.pattern (Js.toLowerCase (Js.trim e)) = true
    /\ (String.length (Js.toLowerCase (Js.trim e)) <=? 255) = true
    /\ (8 <=? String.length p) = true.
Proof.
  intros H. apply safeParse_success in H. destruct H as [Hi Hd].
  revert Hi Hd. unfold Schema.loginUserSchema_run.
  cbn [Schema.issues Schema.data].
  rewrite FieldFacts.run_login_email_cases, run_email_cases,
    run_login_password_cases.
  destruct (get values "email") as [e|]; [|discriminate].
  destruct (get values "password") as [p|];
    [|cbn; intros H; apply app_eq_nil in H; destruct H as [_ H]; discriminate].
  cbn [Zod.value Zod.issues]. intros Hi Hd.
  apply app_eq_nil in Hi. destruct Hi as [He Hp].
  apply prefixIssues_nil in He, Hp.
  apply app_eq_nil in He. destruct He as [He1 He2].
  exists e, p. repeat split; auto.
  - inversion Hd. reflexivity.
  - destruct (EmailFormat.pattern _); [reflexivity | discriminate].
  - destruct (_ <=? 255); [reflexivity | discriminate].
  - destruct (8 <=? _); [reflexivity | discriminate].
Qed.

(** C6, as stated: the plaintext secret of a login is trimmed.  On the
    path through [loginUserSchema] it is not: the password is validated
    for length and handed on as typed. *)
Lemma login_password_not_trimmed_by_schema :
  ~ (forall values d p,
       Schema.loginUserSchema values = Zod.success d ->
       get values "password" = Some p ->
       Schema.login_password d = Js.trim p).
Proof.
  intros H.
  pose proof (H padded_login
                (Schema.mkLoginUserData "a@b.com" " Abcdefg1 ") " Abcdefg1 "
                eq_refl eq_refl) as E.
  vm_compute in E. discriminate E.
Qed.

(** C6, amended.  The login action looks up and verifies with the
    e-mail and the password exactly as it receives them.  The page of
    [Login.tsx] hands it the e-mail lower-cased and trimmed and the
    password trimmed; the page that validates with [loginUserSchema]
    hands it the e-mail trimmed and lower-cased and the password
    unchanged. *)
Theorem login_sanitisation {W} (env : Env W) w :
  (forall formData c,
     In c (trace (Action.loginUserAction formData env w)) ->
     c = select_where_email (Action.form_email formData)
     \/ exists h, c = argon2_verify h (Action.form_password formData))
  /\ (forall formData,
        Login.loginData formData
        = Action.mkLoginFormData
            (Js.toLowerCase (Js.trim (Action.form_email formData)))
            (Js.trim (Action.form_password formData)))
  /\ (forall values d,
        Schema.loginUserSchema values = Zod.success d ->
        exists e p,
          get values "email" = Some e /\ get values "password" = Some p
          /\ Schema.login_email d = Js.toLowerCase (Js.trim e)
          /\ Schema.login_password d = p).
Proof.
  split; [|split].
  - intros formData c.
    destruct (loginUserAction_cases env w formData)
      as [(o & w1 & -> & _)|(o & w2 & h & -> & _)]; cbn [trace In].
    + intros [<-|[]]. left. reflexivity.
    + intros [<-|[<-|[]]]; [left; reflexivity | right; exists h; reflexivity].
  - intros formData. unfold Login.loginData.
    rewrite trim_toLowerCase. reflexivity.
  - intros values d H. apply loginUserSchema_success in H.
    destruct H as (e & p & He & Hp & -> & _).
    exists e, p. repeat split; assumption.
Qed.

Lemma login_sanitisation_witness :
  exists e p,
    get padded_login "email" = Some e /\ get padded_login "password" = Some p
    /\ Schema.login_email (Schema.mkLoginUserData "a@b.com" " Abcdefg1 ")
       = Js.toLowerCase (Js.trim e)
    /\ Schema.login_password (Schema.mkLoginUserData "a@b.com" " Abcdefg1 ") = p.
Proof.
  apply (proj2 (proj2 (login_sanitisation Storage.env accounts))
           padded_login (Schema.mkLoginUserData "a@b.com" " Abcdefg1 ")).
  reflexivity.
Defined.

(* ================================================================== *)
(** ** Further properties of the rule sets *)

Lemma unless_nil b i : unless b i = [] -> b = true.
Proof. destruct b; [reflexivity | discriminate]. Qed.

(** [registerUserSchema] accepts a submission exactly when the four
    strings are present and [accepted]; the data are the sanitised
    values. *)
Lemma registerUserSchema_iff input d :
  Schema.registerUserSchema input = Zod.success d
  <-> exists n u e p,
        get input "name" = Some n /\ get input "userName" = Some u
        /\ get input "email" = Some e /\ get input "password" = Some p
        /\ accepted n u e p (get input "role") = true
        /\ d = Schema.mkRegisterUserData (Js.trim n) (Js.trim u)
                 (Js.toLowerCase (Js.trim e)) p
                 (match get input "role" with
                  | Some r => r | None => "applicant" end).
Proof.
  split.
  - intros H. apply safeParse_success in H. destruct H as [Hi Hd].
    destruct (registerUserSchema_clean input Hi)
      as (n & u & e & p & Hn & Hu & He & Hp & Hdata & _).
    exists n, u, e, p. repeat split; auto.
    + revert Hi. rewrite registerUserSchema_run_fields. cbv zeta.
      rewrite run_name_cases, run_userName_cases, run_email_cases,
        run_password_cases, FieldFacts.run_role, Hn, Hu, He, Hp.
      unfold accepted.
      destruct (get input "role") as [r|]; [destruct (isRole r)|];
        cbn [Schema.issues Zod.issues]; rewrite !prefixIssues_app; intros Hi;
        repeat match goal with
               | H : _ ++ _ = [] |- _ => apply app_eq_nil in H; destruct H
               | H : Zod.prefixIssues _ _ = [] |- _ =>
                   apply prefixIssues_nil in H
               | H : unless _ _ = [] |- _ => apply unless_nil in H
               end;
        try discriminate;
        repeat match goal with H : _ = true |- _ => rewrite H; clear H end;
        reflexivity.
    + rewrite Hdata in Hd. inversion Hd. reflexivity.
  - intros (n & u & e & p & Hn & Hu & He & Hp & Hacc & ->).
    unfold accepted in Hacc.
    repeat (apply andb_prop in Hacc; destruct Hacc as [Hacc ?]).
    unfold Schema.registerUserSchema. apply safeParse_clean.
    + rewrite registerUserSchema_run_fields. cbv zeta.
      rewrite run_name_cases, run_userName_cases, run_email_cases,
        run_password_cases, FieldFacts.run_role, Hn, Hu, He, Hp.
      cbn [Schema.issues Zod.issues].
      repeat match goal with H : _ = true |- _ => rewrite H; clear H end.
      destruct (get input "role") as [r|]; [|reflexivity].
      cbn in *.
      match goal with H : isRole r = true |- _ => rewrite H end. reflexivity.
    + rewrite registerUserSchema_run_fields. cbv zeta.
      rewrite run_name_cases, run_userName_cases, run_email_cases,
        run_password_cases, FieldFacts.run_role, Hn, Hu, He, Hp.
      destruct (get input "role"); reflexivity.
Qed.

Lemma firstLine_incl s c : In c (Js.firstLine s) -> In c (Js.chars s).
Proof.
  induction s as [|a s IH]; [exact (fun H => H)|].
  cbn. destruct (Js.isLineTerminator a); [intros []|].
  intros [<-|H]; [left; reflexivity | right; apply IH, H].
Qed.

Lemma lookahead_char class s :
  Js.lookahead class s = true ->
  exists c, In c (Js.chars s) /\ class c = true.
Proof.
  unfold Js.lookahead. rewrite existsb_exists. intros (c & Hin & Hc).
  exists c. split; [apply firstLine_incl, Hin | exact Hc].
Qed.

Lemma isRole_cases r : isRole r = true -> r = "applicant" \/ r = "employer".
Proof.
  unfold isRole. intros H. apply orb_prop in H.
  destruct H as [H|H]; apply String.eqb_eq in H; auto.
Qed.

(** X1.  Validated registration data keep the bounds of the schema:
    name and user name are trimmed and within their lengths, the user
    name is made of letters, digits, underscores and hyphens, the
    e-mail is trimmed, in lower case and at most 255 long, the password
    has eight characters or more with a lower-case letter, an
    upper-case letter and a digit, and the role is one of the two. *)
Theorem validated_data_invariants input d :
  Schema.registerUserSchema input = Zod.success d ->
  (2 <= String.length (Schema.name d) <= 255
   /\ Js.trim (Schema.name d) = Schema.name d)
  /\ (3 <= String.length (Schema.userName d) <= 255
      /\ Forall (fun c => Schema.isHandleChar c = true)
           (Js.chars (Schema.userName d)))
  /\ (String.length (Schema.email_ d) <= 255
      /\ Js.trim (Schema.email_ d) = Schema.email_ d
      /\ Js.toLowerCase (Schema.email_ d) = Schema.email_ d)
  /\ (8 <= String.length (Schema.password d)
      /\ (exists c, In c (Js.chars (Schema.password d)) /\ Js.isLower c = true)
      /\ (exists c, In c (Js.chars (Schema.password d)) /\ Js.isUpper c = true)
      /\ (exists c, In c (Js.chars (Schema.password d)) /\ Js.isDigit c = true))
  /\ (Schema.role d = "applicant" \/ Schema.role d = "employer").
Proof.
  intros H. apply registerUserSchema_iff in H.
  destruct H as (n & u & e & p & _ & _ & _ & _ & Hacc & ->).
  unfold accepted in Hacc.
  repeat (apply andb_prop in Hacc; destruct Hacc as [Hacc ?]).
  cbn [Schema.name Schema.userName Schema.email_ Schema.password Schema.role].
  repeat match goal with
         | H : (_ <=? _) = true |- _ => apply Nat.leb_le in H
         end.
  split; [|split; [|split; [|split]]].
  - split; [lia | apply trim_idempotent].
  - split; [lia|].
    match goal with H : Schema.userName_pattern _ = true |- _ =>
      unfold Schema.userName_pattern in H; apply andb_prop in H;
      destruct H as [_ H]; rewrite forallb_forall in H end.
    apply Forall_forall. assumption.
  - split; [lia|]. split.
    + rewrite <- trim_toLowerCase, trim_idempotent. reflexivity.
    + apply toLowerCase_idempotent.
  - match goal with H : Schema.password_pattern _ = true |- _ =>
      unfold Schema.password_pattern in H; apply andb_prop in H;
      destruct H as [H Hd]; apply andb_prop in H; destruct H as [Hl Hu] end.
    split; [lia|].
    split; [|split]; apply lookahead_char; assumption.
  - destruct (get input "role") as [r|]; [apply isRole_cases; assumption|].
    left. reflexivity.
Qed.

Lemma validated_data_invariants_witness :
  Schema.role padded_registration_data = "applicant"
  \/ Schema.role padded_registration_data = "employer".
Proof.
  apply (validated_data_invariants padded_registration padded_registration_data).
  reflexivity.
Defined.

Lemma registerUserWithConfirmSchema_data input :
  Schema.data (Schema.registerUserWithConfirmSchema_run input)
  = match Schema.data (Schema.registerUserSchema_run input),
          get input "confirmPassword" with
    | Some b, Some c => Some (Schema.mkRegisterUserWithConfirmData b c)
    | _, _ => None
    end.
Proof.
  unfold Schema.registerUserWithConfirmSchema_run. cbv zeta.
  rewrite run_confirmPassword_cases.
  destruct (Zod.aborted _ 0);
    destruct (Schema.data (Schema.registerUserSchema_run input)) as [b|];
    destruct (get input "confirmPassword") as [c|];
    cbn [Zod.value Schema.data Schema.base Schema.confirmPassword];
    try reflexivity;
    destruct (String.eqb (Schema.password b) c); reflexivity.
Qed.

Lemma registerUserSchema_typed input b c :
  Schema.registerUserSchema input = Zod.success b ->
  get input "confirmPassword" = Some c ->
  typed input = true /\ get input "password" = Some (Schema.password b).
Proof.
  intros H Hc. apply registerUserSchema_iff in H.
  destruct H as (n & u & e & p & Hn & Hu & He & Hp & Hacc & ->).
  unfold typed. rewrite Hn, Hu, He, Hp, Hc. split; [|reflexivity].
  unfold accepted in Hacc. apply andb_prop in Hacc. destruct Hacc as [_ Hr].
  destruct (get input "role"); [exact Hr | reflexivity].
Qed.

(** The refinement schema, from the plain one. *)
Lemma registerUserWithConfirmSchema_from input b c :
  Schema.registerUserSchema input = Zod.success b ->
  get input "confirmPassword" = Some c ->
  Schema.registerUserWithConfirmSchema input
  = if String.eqb (Schema.password b) c
    then Zod.success (Schema.mkRegisterUserWithConfirmData b c)
    else Zod.failure [mismatch].
Proof.
  intros H Hc.
  destruct (registerUserSchema_typed input b c H Hc) as [T Hp].
  apply safeParse_success in H. destruct H as [Hi Hd].
  unfold Schema.registerUserWithConfirmSchema.
  pose proof (registerUserWithConfirmSchema_issues input) as I.
  pose proof (registerUserWithConfirmSchema_data input) as D.
  rewrite Hi, T, Hc in I. rewrite Hd, Hc in D.
  unfold passwords_differ in I. rewrite Hp, Hc in I.
  cbn [Zod.run Schema.confirmPassword_schema Zod.runChecks Zod.issues
       Zod.prefixIssues map app andb] in I.
  destruct (String.eqb (Schema.password b) c); cbn [negb] in I.
  - apply safeParse_clean; assumption.
  - rewrite <- I. apply safeParse_dirty. rewrite I. discriminate.
Qed.

Lemma registerUserWithConfirmSchema_success input data :
  Schema.registerUserWithConfirmSchema input = Zod.success data ->
  Schema.registerUserSchema input = Zod.success (Schema.base data)
  /\ get input "confirmPassword" = Some (Schema.confirmPassword data)
  /\ Schema.confirmPassword data = Schema.password (Schema.base data).
Proof.
  intros H. apply safeParse_success in H. destruct H as [Hi Hd].
  rewrite registerUserWithConfirmSchema_issues in Hi.
  apply app_eq_nil in Hi. destruct Hi as [Hi Hi'].
  apply app_eq_nil in Hi'. destruct Hi' as [Hc Hm].
  rewrite registerUserWithConfirmSchema_data in Hd.
  destruct (Schema.data (Schema.registerUserSchema_run input)) as [b|] eqn:Hb;
    [|discriminate].
  destruct (get input "confirmPassword") as [c|] eqn:Hcc; [|discriminate].
  inversion Hd; subst data; clear Hd. cbn [Schema.base Schema.confirmPassword].
  assert (Hs : Schema.registerUserSchema input = Zod.success b)
    by (apply safeParse_clean; assumption).
  repeat split; auto.
  pose proof (registerUserWithConfirmSchema_from input b c Hs Hcc) as F.
  destruct (registerUserSchema_typed input b c Hs Hcc) as [T Hp].
  rewrite T in Hm. unfold passwords_differ in Hm. rewrite Hp, Hcc in Hm.
  destruct (String.eqb (Schema.password b) c) eqn:E; [|discriminate].
  apply String.eqb_eq in E. auto.
Qed.

(** X2.  The rule set with the confirmation accepts a submission
    exactly when the plain rule set accepts it and the confirmation is
    present and equal to the password, as submitted; when the plain
    rule set accepts and the confirmation differs, the only issue is
    the mismatch at the confirmation field. *)
Theorem confirmation_schema_characterised input :
  (forall data,
     Schema.registerUserWithConfirmSchema input = Zod.success data
     <-> Schema.registerUserSchema input = Zod.success (Schema.base data)
         /\ get input "confirmPassword" = Some (Schema.confirmPassword data)
         /\ Schema.confirmPassword data = Schema.password (Schema.base data))
  /\ (forall b c,
        Schema.registerUserSchema input = Zod.success b ->
        get input "confirmPassword" = Some c ->
        c <> Schema.password b ->
        Schema.registerUserWithConfirmSchema input = Zod.failure [mismatch]).
Proof.
  split.
  - intros data. split; [apply registerUserWithConfirmSchema_success|].
    intros (Hs & Hc & E).
    rewrite (registerUserWithConfirmSchema_from input _ _ Hs Hc).
    rewrite E, String.eqb_refl. destruct data as [b c]. cbn in *.
    rewrite E. reflexivity.
  - intros b c Hs Hc N.
    rewrite (registerUserWithConfirmSchema_from input b c Hs Hc).
    destruct (String.eqb (Schema.password b) c) eqn:E; [|reflexivity].
    apply String.eqb_eq in E. congruence.
Qed.

Lemma confirmation_schema_characterised_witness :
  Schema.registerUserWithConfirmSchema
    (("confirmPassword", "Abcdefg2") :: padded_registration)
  = Zod.failure [mismatch].
Proof.
  apply (proj2 (confirmation_schema_characterised
                  (("confirmPassword", "Abcdefg2") :: padded_registration))
           padded_registration_data "Abcdefg2").
  - reflexivity.
  - reflexivity.
  - discriminate.
Defined.

Lemma revalidation input d :
  Schema.registerUserSchema input = Zod.success d ->
  forall again,
    get again "name" = Some (Schema.name d) ->
    get again "userName" = Some (Schema.userName d) ->
    get again "email" = Some (Schema.email_ d) ->
    get again "password" = Some (Schema.password d) ->
    get again "role" = Some (Schema.role d) ->
    Schema.registerUserSchema again = Zod.success d.
Proof.
  intros H again Gn Gu Ge Gp Gr.
  apply registerUserSchema_iff in H.
  destruct H as (n & u & e & p & _ & _ & _ & _ & Hacc & ->).
  cbn [Schema.name Schema.userName Schema.email_ Schema.password Schema.role]
    in *.
  apply registerUserSchema_iff.
  exists (Js.trim n), (Js.trim u), (Js.toLowerCase (Js.trim e)), p.
  rewrite Gr.
  assert (El : Js.toLowerCase (Js.trim (Js.toLowerCase (Js.trim e)))
               = Js.toLowerCase (Js.trim e)).
  { rewrite (trim_toLowerCase (Js.trim e)), trim_idempotent,
      toLowerCase_idempotent. reflexivity. }
  repeat split; auto.
  - unfold accepted in *. rewrite !trim_idempotent, El.
    repeat (apply andb_prop in Hacc; destruct Hacc as [Hacc ?]).
    repeat match goal with H : _ = true |- _ => rewrite H; clear H end.
    destruct (get input "role"); [assumption | reflexivity].
  - rewrite !trim_idempotent, El. reflexivity.
Qed.

(** X3.  What the registration form has validated, the action accepts
    again unchanged: the values parsed by the rule set with the
    confirmation pass [registerUserSchema] and come out as they went
    in, the confirmation dropped. *)
Theorem form_values_pass_the_action_unchanged values data :
  Schema.registerUserWithConfirmSchema values = Zod.success data ->
  Schema.registerUserSchema (Registration.toObj data)
  = Zod.success (Schema.base data).
Proof.
  intros H. apply registerUserWithConfirmSchema_success in H.
  destruct H as (H & _).
  apply (revalidation values (Schema.base data) H); reflexivity.
Qed.

Lemma form_values_pass_the_action_unchanged_witness :
  Schema.registerUserSchema (Registration.toObj padded_form_data)
  = Zod.success (Schema.base padded_form_data).
Proof.
  apply (form_values_pass_the_action_unchanged padded_form padded_form_data).
  reflexivity.
Defined.

Lemma loginUserSchema_accepts values e p :
  get values "email" = Some e -> get values "password" = Some p ->
  EmailFormat.pattern (Js.toLowerCase (Js.trim e)) = true ->
  (String.length (Js.toLowerCase (Js.trim e)) <=? 255) = true ->
  (8 <=? String.length p) = true ->
  Schema.loginUserSchema values
  = Zod.success (Schema.mkLoginUserData (Js.toLowerCase (Js.trim e)) p).
Proof.
  intros He Hp H1 H2 H3. unfold Schema.loginUserSchema.
  apply safeParse_clean; unfold Schema.loginUserSchema_run;
    cbn [Schema.issues Schema.data];
    rewrite FieldFacts.run_login_email_cases, run_email_cases,
      run_login_password_cases, He, Hp; cbn [Zod.issues Zod.value];
    rewrite ?H1, ?H2, ?H3; reflexivity.
Qed.

Lemma email_normal_form e :
  Js.toLowerCase (Js.trim (Js.toLowerCase (Js.trim e)))
  = Js.toLowerCase (Js.trim e).
Proof.
  rewrite (trim_toLowerCase (Js.trim e)), trim_idempotent,
    toLowerCase_idempotent. reflexivity.
Qed.

Lemma credentials_accepted input d :
  Schema.registerUserSchema input = Zod.success d ->
  Schema.loginUserSchema (credentials d)
  = Zod.success (Schema.mkLoginUserData (Schema.email_ d) (Schema.password d)).
Proof.
  intros H. apply registerUserSchema_iff in H.
  destruct H as (n & u & e & p & _ & _ & _ & _ & Hacc & ->).
  unfold accepted in Hacc.
  repeat (apply andb_prop in Hacc; destruct Hacc as [Hacc ?]).
  assert (El : Js.toLowerCase (Js.trim (Js.toLowerCase (Js.trim e)))
               = Js.toLowerCase (Js.trim e)).
  { rewrite (trim_toLowerCase (Js.trim e)), trim_idempotent,
      toLowerCase_idempotent. reflexivity. }
  cbn [Schema.email_ Schema.password credentials].
  rewrite <- El at 2.
  apply loginUserSchema_accepts; try reflexivity; rewrite ?El; assumption.
Qed.

(** X4.  Credentials that registration has accepted get through the
    validation of the login form, and come out of it as they are: the
    rules of [loginUserSchema] on e-mail and password are no stricter
    than those of [registerUserSchema]. *)
Theorem registered_credentials_pass_login_form input d :
  Schema.registerUserSchema input = Zod.success d ->
  Schema.loginUserSchema (credentials d)
  = Zod.success (Schema.mkLoginUserData (Schema.email_ d) (Schema.password d)).
Proof. apply credentials_accepted. Qed.

Lemma registered_credentials_pass_login_form_witness :
  Schema.loginUserSchema (credentials padded_registration_data)
  = Zod.success (Schema.mkLoginUserData "a@b.com" "Abcdefg1").
Proof.
  apply (registered_credentials_pass_login_form padded_registration
           padded_registration_data).
  reflexivity.
Defined.

(* ================================================================== *)
(** ** Further properties of the actions *)

(** Every run of the registration action is one of six. *)
Lemma registrationAction_run {W} (env : Env W) w input :
  RegistrationRun env w input (Action.registrationAction input env w).
Proof.
  destruct (registerUserSchema_cases input) as [[d Hd]|(i & rest & Hi)].
  - destruct (env (duplicate_query d) w) as [[rows|e] w1] eqn:Hq.
    + destruct rows as [|user more].
      * destruct (env (argon2_hash (Schema.password d)) w1)
          as [[h|e] w2] eqn:Hh.
        -- destruct (env (insertion d h) w2) as [[[]|e] w3] eqn:Hins.
           ++ rewrite (registrationAction_inserted env w input d w1 h w2 w3
                         Hd Hq Hh Hins).
              apply run_inserted with (w1 := w1) (w2 := w2); assumption.
           ++ rewrite (registrationAction_insert_threw env w input d w1 h w2
                         e w3 Hd Hq Hh Hins).
              apply run_insert_threw with (w1 := w1) (w2 := w2) (e := e);
                assumption.
        -- rewrite (registrationAction_hash_threw env w input d w1 e w2
                      Hd Hq Hh).
           apply run_hash_threw with (w1 := w1) (e := e); assumption.
      * rewrite (registrationAction_duplicate env w input d user more w1 Hd Hq).
        apply run_duplicate with (rest := more); assumption.
    + rewrite (registrationAction_query_threw env w input d e w1 Hd Hq).
      apply run_query_threw with (e := e); assumption.
  - rewrite (registrationAction_invalid env w input i rest Hi).
    apply run_invalid with (rest := rest). exact Hi.
Qed.



(** X5.  The registration action never raises, and it reports SUCCESS
    only when the duplicate query found no record, the hash was
    computed and the insert went through, in this order and with
    nothing else called. *)
Theorem registration_success_means_inserted {W} (env : Env W) w input :
  exists o,
    result (Action.registrationAction input env w) = inl o
    /\ (Action.status o = "SUCCESS" ->
        exists d w1 h w2,
          Schema.registerUserSchema input = Zod.success d
          /\ env (duplicate_query d) w = (inl [], w1)
          /\ env (argon2_hash (Schema.password d)) w1 = (inl h, w2)
          /\ env (insertion d h) w2
             = (inl tt, world (Action.registrationAction input env w))
          /\ trace (Action.registrationAction input env w)
             = [duplicate_query d; argon2_hash (Schema.password d);
                insertion d h]).
Proof.
  destruct (registrationAction_run env w input)
    as [i rest Hi|d e w1 Hd Hq|d user rest w1 Hd Hq|d w1 e w2 Hd Hq Hh
        |d w1 h w2 e w3 Hd Hq Hh Hins|d w1 h w2 w3 Hd Hq Hh Hins];
    eexists; (split; [reflexivity|]); cbn [Action.status];
    try discriminate.
  - destruct (String.eqb _ _); discriminate.
  - intros _. exists d, w1, h, w2. cbn [world trace]. auto.
Qed.

(** X6.  Whatever row the registration action asks to insert carries
    the sanitised name, user name, e-mail and role of the submission,
    and as its password the string the hash function resolved to for
    the submitted password. *)
Theorem inserted_row_is_hashed {W} (env : Env W) w input row :
  In (insert_values row) (trace (Action.registrationAction input env w)) ->
  exists d w1 w2,
    Schema.registerUserSchema input = Zod.success d
    /\ env (argon2_hash (Schema.password d)) w1 = (inl (new_password row), w2)
    /\ new_name row = Schema.name d
    /\ new_userName row = Schema.userName d
    /\ new_email row = Schema.email_ d
    /\ new_role row = Schema.role d.
Proof.
  destruct (registrationAction_run env w input)
    as [i rest Hi|d e w1 Hd Hq|d user rest w1 Hd Hq|d w1 e w2 Hd Hq Hh
        |d w1 h w2 e w3 Hd Hq Hh Hins|d w1 h w2 w3 Hd Hq Hh Hins];
    cbn [trace In]; unfold duplicate_query, insertion;
    intros H;
    repeat match goal with
           | H : _ \/ _ |- _ => destruct H
           | H : False |- _ => destruct H
           | H : _ = insert_values _ |- _ =>
               first [discriminate H | inversion H; clear H]
           end;
    subst row; exists d, w1, w2; cbn; repeat split; assumption.
Qed.

Lemma inserted_row_is_hashed_witness :
  exists d w1 w2,
    Schema.registerUserSchema valid_registration = Zod.success d
    /\ Storage.env (argon2_hash (Schema.password d)) w1
       = (inl (Storage.hash "Abcdefg1"), w2)
    /\ "Jo" = Schema.name d /\ "jo_1" = Schema.userName d
    /\ "a@b.com" = Schema.email_ d /\ "applicant" = Schema.role d.
Proof.
  apply (inserted_row_is_hashed Storage.env (Storage.quiet [])
           valid_registration
           (mkNewUser "Jo" "a@b.com" (Storage.hash "Abcdefg1") "jo_1"
              "applicant")).
  vm_compute. right; right; left; reflexivity.
Defined.

(** X7.  The login action reports "Login Successful" only when a
    record was found for the e-mail, the stored password of the first
    record starts with a dollar, and verification of the submitted
    password against it answered true. *)
Theorem login_success_means_verified {W} (env : Env W) w formData :
  result (Action.loginUserAction formData env w) = inl logged_in ->
  exists user rest w1 h w2,
    env (login_query formData) w = (inl (user :: rest), w1)
    /\ user_password user = Some h
    /\ Js.startsWith h "$" = true
    /\ env (argon2_verify h (Action.form_password formData)) w1
       = (inl true, w2).
Proof.
  destruct (env (login_query formData) w) as [[rows|e] w1] eqn:Hq.
  - destruct rows as [|user rest].
    + rewrite (loginUserAction_no_record env w formData w1 Hq). discriminate.
    + destruct (guard_cases (user_password user)) as [G|(h & Hp & Hs)].
      * rewrite (loginUserAction_guard env w formData user rest w1 Hq G).
        discriminate.
      * destruct (env (argon2_verify h (Action.form_password formData)) w1)
          as [[b|e] w2] eqn:Hv.
        -- rewrite (loginUserAction_verified env w formData user rest w1 h b w2
                      Hq Hp Hs Hv).
           destruct b; [|discriminate].
           intros _. exists user, rest, w1, h, w2. auto.
        -- rewrite (loginUserAction_verify_threw env w formData user rest w1 h
                      e w2 Hq Hp Hs Hv).
           discriminate.
  - rewrite (loginUserAction_query_threw env w formData e w1 Hq). discriminate.
Qed.

Lemma login_success_means_verified_witness :
  exists user rest w1 h w2,
    Storage.env (login_query (Action.mkLoginFormData "a@b.com" "Abcdefg1"))
      accounts = (inl (user :: rest), w1)
    /\ user_password user = Some h
    /\ Js.startsWith h "$" = true
    /\ Storage.env (argon2_verify h "Abcdefg1") w1 = (inl true, w2).
Proof.
  apply (login_success_means_verified Storage.env accounts
           (Action.mkLoginFormData "a@b.com" "Abcdefg1")).
  reflexivity.
Defined.

(** X8.  The login action only reads: it makes the lookup, then at most
    one verification, and never asks for a hash or an insert. *)
Theorem login_only_reads {W} (env : Env W) w formData :
  List.length (trace (Action.loginUserAction formData env w)) <= 2
  /\ hd_error (trace (Action.loginUserAction formData env w))
     = Some (login_query formData)
  /\ forallb (fun c => negb (isHash c || isInsert c))
       (trace (Action.loginUserAction formData env w)) = true.
Proof.
  destruct (loginUserAction_cases env w formData)
    as [(o & w1 & -> & _)|(o & w2 & h & -> & _)]; cbn; auto.
Qed.


(* ================================================================== *)
(** ** The actions against the storage environment *)

Lemma filter_or_nil {A} (f g : A -> bool) l :
  filter (fun x => f x || g x) l = [] -> filter f l = [].
Proof.
  induction l as [|a l IH]; [reflexivity|].
  cbn. destruct (f a); cbn; [discriminate|].
  destruct (g a); [discriminate | exact IH].
Qed.

Lemma hash_starts_with_dollar p : Js.startsWith (Storage.hash p) "$" = true.
Proof. reflexivity. Qed.

Lemma hash_well_formed p : Storage.well_formed (Storage.hash p) = true.
Proof.
  unfold Storage.well_formed, Storage.hash, Js.startsWith. cbn.
  destruct p; reflexivity.
Qed.

Lemma hash_eqb p q :
  String.eqb (Storage.hash p) (Storage.hash q) = String.eqb p q.
Proof. reflexivity. Qed.

(** A registration that succeeds against a quiet storage found nobody
    with the e-mail or the user name, and leaves the table with the
    account appended. *)
Lemma registered_in_storage t input d :
  Schema.registerUserSchema input = Zod.success d ->
  result (Action.registrationAction input Storage.env (Storage.quiet t))
  = inl registered ->
  filter (fun u => String.eqb (user_email u) (Schema.email_ d)
                   || String.eqb (user_userName u) (Schema.userName d)) t = []
  /\ world (Action.registrationAction input Storage.env (Storage.quiet t))
     = Storage.quiet (t ++ [account d]).
Proof.
  intros Hd.
  destruct (registrationAction_run Storage.env (Storage.quiet t) input)
    as [i rest Hi|d' e w1 Hd' Hq|d' user rest w1 Hd' Hq|d' w1 e w2 Hd' Hq Hh
        |d' w1 h w2 e w3 Hd' Hq Hh Hins|d' w1 h w2 w3 Hd' Hq Hh Hins];
    cbn [result world]; try discriminate.
  - destruct (String.eqb _ _); discriminate.
  - intros _. assert (d' = d) by congruence. subst d'.
    cbn in Hq. injection Hq as Hf Hw. subst w1.
    cbn in Hh. injection Hh as Hh Hw. subst h w2.
    unfold insertion in Hins. cbn in Hins.
    destruct (Storage.taken t _); [discriminate Hins|].
    injection Hins as Hw. subst w3.
    split; [exact Hf | reflexivity].
Qed.

Lemma lookup_after_registration t d :
  filter (fun u => String.eqb (user_email u) (Schema.email_ d)
                   || String.eqb (user_userName u) (Schema.userName d)) t = [] ->
  Storage.env (select_where_email (Schema.email_ d))
    (Storage.quiet (t ++ [account d]))
  = (inl [account d], Storage.quiet (t ++ [account d])).
Proof.
  intros Hf. cbn. rewrite filter_app, (filter_or_nil _ _ _ Hf).
  cbn. rewrite String.eqb_refl. reflexivity.
Qed.

(** X10.  Against the storage environment, with no other session
    writing: after a registration that succeeded, the table holds the
    new account with the hash of the password; logging in with the
    validated e-mail and password succeeds, also through the form that
    validates with [loginUserSchema]; and registering the same
    submission again is refused with "Email Already Exists". *)
Theorem register_then_login t input d :
  Schema.registerUserSchema input = Zod.success d ->
  result (Action.registrationAction input Storage.env (Storage.quiet t))
  = inl registered ->
  let after :=
    world (Action.registrationAction input Storage.env (Storage.quiet t)) in
  Storage.table after = t ++ [account d]
  /\ result (Action.loginUserAction
               (Action.mkLoginFormData (Schema.email_ d) (Schema.password d))
               Storage.env after) = inl logged_in
  /\ result (Login.submit (credentials d) Storage.env after)
     = inl (Some (Login.toast_success "Login Successful"))
  /\ result (Action.registrationAction input Storage.env after)
     = inl email_exists.
Proof.
  intros Hd Hr. cbv zeta.
  destruct (registered_in_storage t input d Hd Hr) as [Hf ->].
  pose proof (lookup_after_registration t d Hf) as Hq.
  assert (Hl : Action.loginUserAction
                 (Action.mkLoginFormData (Schema.email_ d) (Schema.password d))
                 Storage.env (Storage.quiet (t ++ [account d]))
               = mkRun (inl logged_in) (Storage.quiet (t ++ [account d]))
                   [select_where_email (Schema.email_ d);
                    argon2_verify (Storage.hash (Schema.password d))
                      (Schema.password d)]).
  { apply (loginUserAction_verified Storage.env _
             (Action.mkLoginFormData (Schema.email_ d) (Schema.password d))
             (account d) [] (Storage.quiet (t ++ [account d]))
             (Storage.hash (Schema.password d)) true).
    - exact Hq.
    - reflexivity.
    - reflexivity.
    - cbn [Storage.env Storage.arrive Storage.quiet Storage.arriving
           Action.form_password].
      rewrite hash_well_formed, String.eqb_refl. reflexivity. }
  split; [reflexivity|]. split; [rewrite Hl; reflexivity|]. split.
  - unfold Login.submit. rewrite (credentials_accepted input d Hd).
    unfold Login.onSubmit, bind, try_catch, ret.
    cbn [Schema.login_email Schema.login_password result world trace].
    rewrite Hl. reflexivity.
  - rewrite (registrationAction_duplicate Storage.env _ input d (account d) []
               (Storage.quiet (t ++ [account d])) Hd).
    + cbn. rewrite String.eqb_refl. reflexivity.
    + unfold duplicate_query. cbn. rewrite filter_app, Hf.
      cbn. rewrite String.eqb_refl. reflexivity.
Qed.

Lemma register_then_login_witness :
  result (Action.loginUserAction
            (Action.mkLoginFormData "a@b.com" "Abcdefg1") Storage.env
            (world (Action.registrationAction valid_registration Storage.env
                      (Storage.quiet [plain_text_user]))))
  = inl logged_in.
Proof.
  apply (register_then_login [plain_text_user] valid_registration
           valid_registration_data); reflexivity.
Defined.

(** X11.  Against the storage environment: a password registered with
    white space at either end does not log in through the page of
    [Login.tsx], which trims what was typed before handing it to the
    action; the page shows "Invalid email or password". *)
Theorem padded_password_rejected_by_trimming_page t input d :
  Schema.registerUserSchema input = Zod.success d ->
  result (Action.registrationAction input Storage.env (Storage.quiet t))
  = inl registered ->
  Js.trim (Schema.password d) <> Schema.password d ->
  result (Login.handleFormSubmit
            (Action.mkLoginFormData (Schema.email_ d) (Schema.password d))
            Storage.env
            (world (Action.registrationAction input Storage.env
                      (Storage.quiet t))))
  = inl (Some (Login.toast_error "Invalid email or password")).
Proof.
  intros Hd Hr Hp.
  destruct (registered_in_storage t input d Hd Hr) as [Hf ->].
  pose proof (lookup_after_registration t d Hf) as Hq.
  assert (He : Js.trim (Js.toLowerCase (Schema.email_ d)) = Schema.email_ d).
  { apply registerUserSchema_iff in Hd.
    destruct Hd as (n & u & e & p & _ & _ & _ & _ & _ & ->).
    cbn [Schema.email_].
    rewrite trim_toLowerCase. apply email_normal_form. }
  unfold Login.handleFormSubmit, Login.loginData, bind, try_catch, ret.
  cbn [Action.form_email Action.form_password].
  rewrite He.
  rewrite (loginUserAction_verified Storage.env _
             (Action.mkLoginFormData (Schema.email_ d)
                (Js.trim (Schema.password d)))
             (account d) [] (Storage.quiet (t ++ [account d]))
             (Storage.hash (Schema.password d)) false
             (Storage.quiet (t ++ [account d])) Hq eq_refl eq_refl).
  - reflexivity.
  - cbn [Storage.env Storage.arrive Storage.quiet Storage.arriving
         Action.form_password].
    rewrite hash_well_formed, hash_eqb.
    destruct (String.eqb (Schema.password d) (Js.trim (Schema.password d)))
      eqn:E; [|reflexivity].
    apply String.eqb_eq in E. congruence.
Qed.

Lemma padded_password_rejected_by_trimming_page_witness :
  result (Login.handleFormSubmit
            (Action.mkLoginFormData "a@b.com" " Abcdefg1 ") Storage.env
            (world (Action.registrationAction spaced_password_registration
                      Storage.env (Storage.quiet []))))
  = inl (Some (Login.toast_error "Invalid email or password")).
Proof.
  apply (padded_password_rejected_by_trimming_page []
           spaced_password_registration spaced_password_data).
  - reflexivity.
  - reflexivity.
  - discriminate.
Defined.

(* ================================================================== *)
(** ** The form state of the login page *)

Lemma get_assign_same prev name value :
  get (Login.assign prev name value) name = Some value.
Proof.
  induction prev as [|[k v] rest IH]; cbn.
  - rewrite String.eqb_refl. reflexivity.
  - destruct (String.eqb k name) eqn:E; cbn; rewrite E; [reflexivity | exact IH].
Qed.

Lemma get_assign_other prev name value other :
  other <> name ->
  get (Login.assign prev name value) other = get prev other.
Proof.
  intros N. induction prev as [|[k v] rest IH]; cbn.
  - destruct (String.eqb name other) eqn:E; [|reflexivity].
    apply String.eqb_eq in E. congruence.
  - destruct (String.eqb k name) eqn:E; cbn.
    + apply String.eqb_eq in E. subst k.
      destruct (String.eqb name other) eqn:E'; [|reflexivity].
      apply String.eqb_eq in E'. congruence.
    + rewrite IH. reflexivity.
Qed.

Lemma keys_assign prev name value :
  In name (keys prev) -> keys (Login.assign prev name value) = keys prev.
Proof.
  unfold keys. induction prev as [|[k v] rest IH]; cbn; [intros []|].
  destruct (String.eqb k name) eqn:E; cbn; [reflexivity|].
  intros [H|H].
  - subst k. rewrite String.eqb_refl in E. discriminate.
  - rewrite IH by exact H. reflexivity.
Qed.

Lemma assign_assign prev name v1 v2 :
  Login.assign (Login.assign prev name v1) name v2 = Login.assign prev name v2.
Proof.
  induction prev as [|[k v] rest IH]; cbn.
  - rewrite String.eqb_refl. reflexivity.
  - destruct (String.eqb k name) eqn:E; cbn; rewrite E; [reflexivity|].
    rewrite IH. reflexivity.
Qed.

(** X12.  [handleInputChange] sets the named field of the form state
    to the typed value and leaves every other field as it was; a field
    the state already has keeps its place and no field is added; and of
    two changes of the same field the later one wins. *)
Theorem handleInputChange_updates_one_field prev name value :
  get (Login.handleInputChange name value prev) name = Some value
  /\ (forall other, other <> name ->
        get (Login.handleInputChange name value prev) other = get prev other)
  /\ (In name (keys prev) ->
        keys (Login.handleInputChange name value prev) = keys prev)
  /\ (forall later,
        Login.handleInputChange name later
          (Login.handleInputChange name value prev)
        = Login.handleInputChange name later prev).
Proof.
  unfold Login.handleInputChange. split; [|split; [|split]].
  - apply get_assign_same.
  - intros other. apply get_assign_other.
  - apply keys_assign.
  - intros later. apply assign_assign.
Qed.

(* ================================================================== *)
(** ** The outcomes of the actions *)

(** X13.  Whatever the collaborators do, the login action returns one of
    three outcomes (success, invalid credentials, unknown error), and
    the registration action returns success, one of the two duplicate
    outcomes, the unknown error, or an ERROR carrying the first
    violation of the submission. *)
Theorem outcome_envelope {W} (env : Env W) w :
  (forall formData,
     exists o,
       result (Action.loginUserAction formData env w) = inl o
       /\ In o [logged_in; invalid_credentials; unknown_error])
  /\ (forall input,
        exists o,
          result (Action.registrationAction input env w) = inl o
          /\ (In o [registered; email_exists; userName_exists; unknown_error]
              \/ exists m, Spec.first_violation input = Some m
                           /\ o = Action.mkOutcome "ERROR" m)).
Proof.
  split.
  - intros formData.
    destruct (env (login_query formData) w) as [[rows|e] w1] eqn:Hq.
    + destruct rows as [|user rest].
      * rewrite (loginUserAction_no_record env w formData w1 Hq).
        eexists; split; [reflexivity | cbn; auto].
      * destruct (guard_cases (user_password user)) as [G|(h & Hp & Hs)].
        -- rewrite (loginUserAction_guard env w formData user rest w1 Hq G).
           eexists; split; [reflexivity | cbn; auto].
        -- destruct (env (argon2_verify h (Action.form_password formData)) w1)
             as [[b|e] w2] eqn:Hv.
           ++ rewrite (loginUserAction_verified env w formData user rest w1 h
                         b w2 Hq Hp Hs Hv).
              eexists; split; [reflexivity | destruct b; cbn; auto].
           ++ rewrite (loginUserAction_verify_threw env w formData user rest
                         w1 h e w2 Hq Hp Hs Hv).
              eexists; split; [reflexivity | cbn; auto].
    + rewrite (loginUserAction_query_threw env w formData e w1 Hq).
      eexists; split; [reflexivity | cbn; auto].
  - intros input.
    destruct (registrationAction_run env w input)
      as [i rest Hi|d e w1 Hd Hq|d user rest w1 Hd Hq|d w1 e w2 Hd Hq Hh
          |d w1 h w2 e w3 Hd Hq Hh Hins|d w1 h w2 w3 Hd Hq Hh Hins];
      eexists; (split; [reflexivity|]); cbn [In];
      try (left; tauto).
    + right. exists (Zod.message i). split; [|reflexivity].
      rewrite <- first_issue_first_violation.
      apply safeParse_failure in Hi. rewrite Hi. reflexivity.
    + left. destruct (String.eqb _ _); tauto.
Qed.
